(** * vwradio: build recipes and the faceplate driver interface

    This development covers one C header ([avr/faceplate.h]) and three
    Makefiles.  The header is embedded as its text lines together with the
    part of the C preprocessor it exercises; the Makefiles are embedded as
    variable tables and rules whose recipe lines are the source's own text,
    together with make's variable expansion and the fragment of the shell
    and of the utilities their recipes call. *)

From Stdlib Require Import Ascii String.
From stdpp Require Import gmap strings list fin_maps.

Local Open Scope string_scope.
Local Open Scope list_scope.

(** ** Characters and small string helpers *)

Module Str.

Definition dquote : string := String "034"%char "".
Definition newline : string := String "010"%char "".

Fixpoint strip_prefix (p s : string) : option string :=
  match p with
  | "" => Some s
  | String a p' =>
      match s with
      | String b s' => if Ascii.eqb a b then strip_prefix p' s' else None
      | "" => None
      end
  end.

(** [split_on c s] cuts [s] at the first [c]: the text before it and the
    text after it; [None] when [c] does not occur. *)
Fixpoint split_on (c : ascii) (s : string) : option (string * string) :=
  match s with
  | "" => None
  | String a s' =>
      if Ascii.eqb a c then Some ("", s')
      else match split_on c s' with
           | Some (l, r) => Some (String a l, r)
           | None => None
           end
  end.

(** All the fields of [s] between occurrences of [c] (at least one). *)
Fixpoint fields (c : ascii) (s : string) : list string :=
  match s with
  | "" => [""]
  | String a s' =>
      if Ascii.eqb a c then "" :: fields c s'
      else match fields c s' with
           | f :: fs => String a f :: fs
           | [] => [String a ""]
           end
  end.

Definition strip_suffix (p s : string) : option string :=
  option_map String.rev (strip_prefix (String.rev p) (String.rev s)).

Fixpoint has_char (c : ascii) (s : string) : bool :=
  match s with
  | "" => false
  | String a s' => Ascii.eqb a c || has_char c s'
  end.

Fixpoint join (sep : string) (l : list string) : string :=
  match l with
  | [] => ""
  | [x] => x
  | x :: l' => x +:+ sep +:+ join sep l'
  end.

(** A name without white space: what [String.words] keeps in one piece. *)
Fixpoint plain (s : string) : bool :=
  match s with
  | "" => true
  | String a s' => negb (Ascii.is_space a) && plain s'
  end.

(** Lower-case hexadecimal digits only. *)
Fixpoint hex (s : string) : bool :=
  match s with
  | "" => true
  | String a s' => has_char a "0123456789abcdef" && hex s'
  end.

End Str.

(** ** The header [avr/faceplate.h] and the preprocessor *)

Module Cpp.

(** The twelve lines of the header, as they are in the source. *)
Definition faceplate_h : list string :=
  [ "#ifndef FACEPLATE_H";
    "#define FACEPLATE_H";
    "";
    "#include <stdint.h>";
    "#include " +:+ Str.dquote +:+ "updemu.h" +:+ Str.dquote;
    "";
    "void faceplate_spi_init();";
    "void faceplate_clear_display();";
    "void faceplate_send_upd_command();";
    "void faceplate_update_from_upd_if_dirty(upd_state_t *state);";
    "";
    "#endif" ].

Inductive line :=
| LIfndef (macro : string)
| LDefine (macro : string)
| LInclude (header : string)
| LEndif
| LBlank
| LText (text : string).

(** The name between the delimiters of [#include <name>] or
    [#include "name"]. *)
Definition include_name (arg : string) : string :=
  match arg with
  | String _ rest =>
      match String.rev rest with
      | String _ r => String.rev r
      | "" => ""
      end
  | "" => ""
  end.

(** The macro name of a [#define]: up to the first blank. *)
Definition define_name (arg : string) : string :=
  match Str.split_on " " arg with
  | Some (m, _) => m
  | None => arg
  end.

Definition classify (l : string) : line :=
  match Str.strip_prefix "#ifndef " l with
  | Some m => LIfndef m
  | None =>
  match Str.strip_prefix "#define " l with
  | Some m => LDefine (define_name m)
  | None =>
  match Str.strip_prefix "#include " l with
  | Some h => LInclude (include_name h)
  | None =>
  match Str.strip_prefix "#endif" l with
  | Some _ => LEndif
  | None => if String.eqb l "" then LBlank else LText l
  end end end end.

(** Preprocessor state: the macros defined so far, the stack of open
    conditionals (one flag per open [#ifndef]: whether its group is kept),
    the text emitted so far, and whether the include nesting limit was hit. *)
Record state := State {
  defined : gset string;
  conds : list bool;
  out : list string;
  too_deep : bool
}.

Definition init : state :=
  {| defined := ∅; conds := []; out := []; too_deep := false |}.

Definition active (st : state) : bool := forallb id (conds st).

Definition push (b : bool) (st : state) : state :=
  {| defined := defined st; conds := b :: conds st;
     out := out st; too_deep := too_deep st |}.

Definition pop (st : state) : state :=
  {| defined := defined st; conds := tail (conds st);
     out := out st; too_deep := too_deep st |}.

Definition define (m : string) (st : state) : state :=
  {| defined := {[ m ]} ∪ defined st; conds := conds st;
     out := out st; too_deep := too_deep st |}.

Definition emit (ls : list string) (st : state) : state :=
  {| defined := defined st; conds := conds st;
     out := out st ++ ls; too_deep := too_deep st |}.

Definition overflow (st : state) : state :=
  {| defined := defined st; conds := conds st;
     out := out st; too_deep := true |}.

(** One classified line.  [include] is what an [#include] of a header does
    to the state.  Inside a skipped group only the conditional structure is
    followed. *)
Definition exec (include : string → state → state) (st : state)
    (l : line) : state :=
  match l with
  | LIfndef m => push (bool_decide (m ∉ defined st)) st
  | LEndif => pop st
  | LDefine m => if active st then define m st else st
  | LInclude h => if active st then include h st else st
  | LText t => if active st then emit [t] st else st
  | LBlank => st
  end.

Definition step (include : string → state → state) (st : state)
    (l : string) : state :=
  exec include st (classify l).

(** The headers whose text is embedded here. *)
Definition repo_header (name : string) : option (list string) :=
  if String.eqb name "faceplate.h" then Some faceplate_h else None.

Section Preprocess.

(** The other headers ([<stdint.h>] and [updemu.h], whose text is not
    embedded): what including one emits and which macros it leaves
    defined, from the macros defined before. *)
Variable other_header : string → gset string → list string * gset string.

Definition include_other (h : string) (st : state) : state :=
  let r := other_header h (defined st) in
  {| defined := r.2; conds := conds st;
     out := out st ++ r.1; too_deep := too_deep st |}.

(** A file's lines, with [depth] levels of include nesting left. *)
Fixpoint file (depth : nat) (ls : list string) (st : state) : state :=
  match depth with
  | 0 => overflow st
  | S d =>
      foldl (step (fun h st' =>
                     match repo_header h with
                     | Some body => file d body st'
                     | None => include_other h st'
                     end)) st ls
  end.

(** A translation unit that includes [faceplate.h] [n] times. *)
Definition include_faceplate : string :=
  "#include " +:+ Str.dquote +:+ "faceplate.h" +:+ Str.dquote.

Definition unit_of (n : nat) : list string := replicate n include_faceplate.

Definition translate (depth n : nat) : state := file depth (unit_of n) init.

End Preprocess.

(** A stand-in for the other headers: [updemu.h] has a guard
    of its own and declares the state type, [<stdint.h>] emits nothing. *)
Definition sample_header (h : string) (m : gset string)
    : list string * gset string :=
  if String.eqb h "updemu.h" then
    if bool_decide ("UPDEMU_H" ∈ m) then ([], m)
    else (["typedef struct upd_state upd_state_t;"], {[ "UPDEMU_H" ]} ∪ m)
  else ([], m).

(** *** Function declarations *)

Record decl := Decl {
  ret_type : string;
  fn_name : string;
  fn_params : string
}.

(** [RET NAME(PARAMS);] *)
Definition parse_decl (l : string) : option decl :=
  match Str.split_on " " l with
  | Some (ret, rest) =>
      match Str.split_on "(" rest with
      | Some (name, rest') =>
          match Str.strip_suffix ");" rest' with
          | Some ps => Some (Decl ret name ps)
          | None => None
          end
      | None => None
      end
  | None => None
  end.

(** The text lines of a file: neither directives nor blank. *)
Definition own_text (ls : list string) : list string :=
  omap (fun l => match classify l with LText t => Some t | _ => None end) ls.

Definition declarations (ls : list string) : list decl :=
  omap parse_decl (own_text ls).

End Cpp.


(** ** File-name patterns *)

Module Glob.

(** Shell and make patterns: [*] matches any run of characters, [?] any
    one character, every other character itself. *)
Fixpoint matches (p s : string) {struct p} : bool :=
  match p with
  | "" => match s with "" => true | _ => false end
  | String c p' =>
      if Ascii.eqb c "*" then
        (fix star (s : string) : bool :=
           matches p' s
           || match s with "" => false | String _ s' => star s' end) s
      else
        match s with
        | String d s' => (Ascii.eqb c "?" || Ascii.eqb c d) && matches p' s'
        | "" => false
        end
  end.

End Glob.

(** ** Makefiles *)

Module Make.

(** A rule as written: its target and prerequisites before expansion, and
    its recipe lines without the leading tab. *)
Record rule := Rule {
  target : string;
  prereqs : string;
  recipe : list string
}.

Record makefile := Makefile {
  vars : list (string * string);
  rules : list rule
}.

(** [kwp1281_tool/firmware/Makefile] *)
Definition kwp1281_mk : makefile :=
  {| vars :=
       [ ("PROJECT", "kwp1281");
         ("SOURCES", "$(wildcard *.c)");
         ("MMCU", "atmega1284");
         ("F_CPU", "20000000");
         ("ISPFLAGS", "-c atmelice");
         ("CFLAGS", "-mmcu=$(MMCU) -g -Wall -Os -std=c99 -DF_CPU=$(F_CPU)") ];
     rules :=
       [ Rule "$(PROJECT).hex" "$(PROJECT).elf"
           [ "avr-objcopy -j .text -j .data -O ihex $(PROJECT).elf $(PROJECT).hex" ];
         Rule "$(PROJECT).elf" "$(SOURCES)"
           [ "avr-gcc $(CFLAGS) -I. -o $(PROJECT).elf $(SOURCES)" ];
         Rule "program" "$(PROJECT).hex"
           [ "avrdude $(ISPFLAGS) -p $(MMCU) -U lfuse:w:0xF7:m -U hfuse:w:0x92:m -U efuse:w:0xFF:m";
             "avrdude $(ISPFLAGS) -p $(MMCU) -U flash:w:$(PROJECT).hex" ];
         Rule "size" "$(PROJECT).elf"
           [ "avr-size --mcu=$(MMCU) --format=avr $(PROJECT).elf" ];
         Rule "dump" "$(PROJECT).elf"
           [ "avr-objdump -h -S -I. $(PROJECT).elf" ];
         Rule "clean" ""
           [ "find . -depth -name '*.elf' -print -delete";
             "find . -depth -name '*.hex' -print -delete";
             "find . -depth -name '*.o'   -print -delete";
             "find . -depth -name '*.pyc' -print -delete" ];
         Rule "arduino_mega" ""
           [ "avr-gcc -DF_CPU=16000000 -mmcu=atmega2560 -g -Wall -Os -std=c99 -I. -o $(PROJECT).elf $(SOURCES)";
             "avr-objcopy -j .text -j .data -O ihex $(PROJECT).elf $(PROJECT).hex";
             "avrdude -cwiring -P /dev/ttyACM0 -D -p atmega2560 -U flash:w:$(PROJECT).hex" ];
         Rule "all" "clean $(PROJECT).hex program" [] ] |}.

(** The first Makefile of [unnamed/part_000] (the main-MCU disassembly). *)
Definition mainmcu_mk : makefile :=
  {| vars := [];
     rules :=
       [ Rule "diff" "out.bin"
           [ "openssl sha1 out.bin | cut -d ' ' -f 2 > out.sha1";
             "diff pu1666a_mainmcu.sha1 out.sha1" ];
         Rule "out.bin" "out.lst"
           [ "python ../lst2bin.py out.lst out.bin" ];
         Rule "out.lst" "pu1666a_mainmcu.asm"
           [ "asf2mc8 -l pu1666a_mainmcu.asm";
             "mv pu1666a_mainmcu.lst out.lst";
             "rm -f out.hlr" ];
         Rule "clean" ""
           [ "rm -f out.*" ];
         Rule "all" "clean out.bin diff" [] ] |}.

(** The second Makefile of [unnamed/part_000] (the sub-MCU disassembly). *)
Definition submcu_mk : makefile :=
  {| vars := [];
     rules :=
       [ Rule "all" "clean out.bin diff" [];
         Rule "diff" "out.bin"
           [ "python checksum.py out.bin";
             "openssl sha1 out.bin | cut -d ' ' -f 2 > out.sha1";
             "diff software23.sha1 out.sha1" ];
         Rule "out.bin" "out.hex"
           [ "srec_cat out.hex -intel -o out.bin -binary" ];
         Rule "out.hex" "out.lmf"
           [ "oc78k0 out.lmf" ];
         Rule "out.lmf" "out.prn"
           [ "lk78k0 out.rel" ];
         Rule "out.prn" ""
           [ "ra78k0 -cf0831y -oout.rel -pout.prn software23.asm" ];
         Rule "list" "out.prn"
           [ "cat out.prn" ];
         Rule "clean" ""
           [ "rm -f out.*" ] ] |}.

(** *** Variable expansion *)

Inductive mode :=
| Plain
| Dollar
| Ref (acc : string).

(** One pass over the text; [value] gives what a reference stands for.
    [$(NAME)] is a reference, [$$] a dollar sign, [$c] a reference to the
    one-letter variable [c].  The name of an open reference is collected
    backwards. *)
Fixpoint scan (value : string → string) (m : mode) (s : string) : string :=
  match s with
  | "" => ""
  | String c s' =>
      match m with
      | Plain =>
          if Ascii.eqb c "$" then scan value Dollar s'
          else String c (scan value Plain s')
      | Dollar =>
          if Ascii.eqb c "(" then scan value (Ref "") s'
          else if Ascii.eqb c "$" then String "$" (scan value Plain s')
          else value (String c "") +:+ scan value Plain s'
      | Ref acc =>
          if Ascii.eqb c ")" then value (String.rev acc) +:+ scan value Plain s'
          else scan value (Ref (String c acc)) s'
      end
  end.

Fixpoint assoc (k : string) (l : list (string * string)) : option string :=
  match l with
  | [] => None
  | (k', v) :: l' => if String.eqb k k' then Some v else assoc k l'
  end.

Section Expand.

(** The names of the files in the Makefile's directory, which
    [$(wildcard ...)] consults. *)
Variable dir : list string.
Variable mf : makefile.

(** Variables set with [=] are expanded when used, so a value may refer to
    other variables; [fuel] bounds the nesting. *)
Fixpoint value_of (fuel : nat) (name : string) : string :=
  match fuel with
  | 0 => ""
  | S f =>
      match Str.strip_prefix "wildcard " name with
      | Some pat =>
          Str.join " "
            (List.filter (Glob.matches (scan (value_of f) Plain pat)) dir)
      | None =>
          match assoc name (vars mf) with
          | Some v => scan (value_of f) Plain v
          | None => ""
          end
      end
  end.

Definition expand (s : string) : string :=
  scan (value_of (S (length (vars mf)))) Plain s.

(** *** Rules and the order of a build *)

Definition find_rule (t : string) : option rule :=
  List.find (fun r => String.eqb (expand (target r)) t) (rules mf).

(** The goal of a plain [make]: the target of the first rule. *)
Definition default_goal : option string :=
  match rules mf with
  | r :: _ => Some (expand (target r))
  | [] => None
  end.

Definition commands (r : rule) : list string := map expand (recipe r).

(** The commands [make -B -n t] prints: every target remade, each once,
    prerequisites first and in the order written.  The second component is
    the list of targets already considered. *)
Fixpoint plan (fuel : nat) (seen : list string) (t : string)
    : list string * list string :=
  match fuel with
  | 0 => ([], seen)
  | S f =>
      if bool_decide (t ∈ seen) then ([], seen)
      else
        match find_rule t with
        | None => ([], t :: seen)
        | Some r =>
            let before :=
              foldl (fun (acc : list string * list string) p =>
                       let r' := plan f acc.2 p in (acc.1 ++ r'.1, r'.2)%list)
                    ([], t :: seen) (String.words (expand (prereqs r))) in
            ((before.1 ++ commands r)%list, before.2)
        end
  end.

Definition build (t : string) : list string :=
  (plan (S (length (rules mf))) [] t).1.

(** The program a command line runs: its first word. *)
Definition command_name (cmd : string) : string :=
  match String.words cmd with
  | w :: _ => w
  | [] => ""
  end.

End Expand.

(** The targets meant to be named on make's command line, and the programs
    of the toolchain. *)
Definition cli_targets : list string :=
  [ "program"; "size"; "dump"; "clean"; "arduino_mega"; "all" ].

Definition toolchain : list string :=
  [ "avr-gcc"; "avr-objcopy"; "avr-size"; "avr-objdump"; "avrdude"; "find" ].

(** A firmware directory, for concrete runs. *)
Definition sample_dir : list string :=
  [ "Makefile"; "kwp1281.c"; "main.c"; "main.h"; "uart.c" ].

End Make.

(** ** The shell that runs recipe lines, and the utilities they call *)

Module Sh.

(** *** Words, pipes and redirections *)

(** A word carries whether it holds an unquoted pattern character, in which
    case the shell replaces it by the matching file names. *)
Inductive token :=
| TWord (w : string) (wild : bool)
| TPipe
| TInto.

(** The word being read: its text backwards, and whether it is wild. *)
Definition flush (cur : option (string * bool)) : list token :=
  match cur with
  | Some (w, g) => [TWord (String.rev w) g]
  | None => []
  end.

Definition grow (c : ascii) (g : bool) (cur : option (string * bool))
    : option (string * bool) :=
  match cur with
  | Some (w, g') => Some (String c w, g || g')
  | None => Some (String c "", g)
  end.

Definition start (cur : option (string * bool)) : option (string * bool) :=
  match cur with
  | Some _ => cur
  | None => Some ("", false)
  end.

(** [quoted] is true between single quotes, where every character stands
    for itself. *)
Fixpoint lex (quoted : bool) (cur : option (string * bool)) (s : string)
    : list token :=
  match s with
  | "" => flush cur
  | String c s' =>
      if quoted then
        if Ascii.eqb c "'" then lex false cur s'
        else lex true (grow c false cur) s'
      else if Ascii.eqb c "'" then lex true (start cur) s'
      else if Ascii.eqb c " " then (flush cur ++ lex false None s')%list
      else if Ascii.eqb c "|" then (flush cur ++ TPipe :: lex false None s')%list
      else if Ascii.eqb c ">" then (flush cur ++ TInto :: lex false None s')%list
      else lex false
             (grow c (Ascii.eqb c "*" || Ascii.eqb c "?") cur) s'
  end.

(** A simple command: its words and where its output goes. *)
Record simple := Simple {
  argv : list (string * bool);
  into : option string
}.

Definition nothing : simple := {| argv := []; into := None |}.

Definition add_arg (w : string * bool) (c : simple) : simple :=
  {| argv := (argv c ++ [w])%list; into := into c |}.

Definition set_into (f : string) (c : simple) : simple :=
  {| argv := argv c; into := Some f |}.

(** A line is a pipeline of simple commands. *)
Fixpoint parse (cur : simple) (ts : list token) : list simple :=
  match ts with
  | [] => [cur]
  | TWord w g :: ts' => parse (add_arg (w, g) cur) ts'
  | TPipe :: ts' => cur :: parse nothing ts'
  | TInto :: TWord f _ :: ts' => parse (set_into f cur) ts'
  | TInto :: ts' => parse cur ts'
  end.

(** *** Files *)

(** The directory a recipe runs in: regular files by name. *)
Abbreviation files := (gmap string string).

Definition names (fs : files) : list string := elements (dom fs).

(** A wild word stands for the names it matches, or for itself when it
    matches none. *)
Definition expand_word (fs : files) (w : string * bool) : list string :=
  if w.2 then
    match List.filter (Glob.matches w.1) (names fs) with
    | [] => [w.1]
    | l => l
    end
  else [w.1].

Definition expand_args (fs : files) (ws : list (string * bool)) : list string :=
  concat (map (expand_word fs) ws).

(** *** Utilities *)

(** Exit status, standard output, files afterwards. *)
Record outcome := Outcome {
  status : nat;
  stdout : string;
  after : files
}.

Fixpoint digits (acc : nat) (s : string) : option nat :=
  match s with
  | "" => Some acc
  | String c s' =>
      match Ascii.is_nat c with
      | Some d => digits (10 * acc + d) s'
      | None => None
      end
  end.

(** The lines of a text: a final newline ends the last line and does not
    start another. *)
Definition lines (s : string) : list string :=
  match List.rev (Str.fields "010" s) with
  | "" :: l => List.rev l
  | l => List.rev l
  end.

Definition unlines (l : list string) : string :=
  String.concat "" (map (fun x => x +:+ Str.newline) l).

(** [cut -d D -f N] on one line: a line without the delimiter is passed
    whole, otherwise its [N]th field (counted from 1), empty when there
    are fewer. *)
Definition cut_line (d : ascii) (n : nat) (l : string) : string :=
  if Str.has_char d l then
    match n with
    | 0 => ""
    | S i => nth i (Str.fields d l) ""
    end
  else l.

Definition cut (d n : string) (input : string) : option string :=
  match d, digits 0 n with
  | String c "", Some k => Some (unlines (map (cut_line c k) (lines input)))
  | _, _ => None
  end.

Section Run.

(** The 40 hexadecimal digits [openssl sha1] prints for a file's bytes. *)
Variable sha1_hex : string → string.

(** Every program that is not modelled here (python scripts, assemblers,
    linkers): from its arguments, its input and the files. *)
Variable other : list string → string → files → outcome.

Definition openssl (args : list string) (fs : files) : outcome :=
  match args with
  | [sub; f] =>
      if String.eqb sub "sha1" then
        match fs !! f with
        | Some bytes =>
            Outcome 0 ("SHA1(" +:+ f +:+ ")= " +:+ sha1_hex bytes +:+ Str.newline) fs
        | None => Outcome 1 "" fs
        end
      else Outcome 1 "" fs
  | _ => Outcome 1 "" fs
  end.

(** [diff A B]: 0 when the files are the same, 1 when they differ, 2 when
    one cannot be read.  The report it prints is not modelled. *)
Definition diff (args : list string) (fs : files) : outcome :=
  match args with
  | [a; b] =>
      match fs !! a, fs !! b with
      | Some x, Some y => Outcome (if String.eqb x y then 0 else 1) "" fs
      | _, _ => Outcome 2 "" fs
      end
  | _ => Outcome 2 "" fs
  end.

(** [rm -f NAME...]: the named files are gone; a missing one is no error. *)
Definition rm_f (args : list string) (fs : files) : outcome :=
  Outcome 0 "" (foldr delete fs args).

Definition utility (args : list string) (input : string) (fs : files)
    : outcome :=
  match args with
  | [] => Outcome 0 "" fs
  | prog :: rest =>
      if String.eqb prog "openssl" then openssl rest fs
      else if String.eqb prog "diff" then diff rest fs
      else if String.eqb prog "cut" then
        match rest with
        | [o1; d; o2; n] =>
            if String.eqb o1 "-d" && String.eqb o2 "-f" then
              match cut d n input with
              | Some text => Outcome 0 text fs
              | None => Outcome 1 "" fs
              end
            else other args input fs
        | _ => other args input fs
        end
      else if String.eqb prog "rm" then
        match rest with
        | o :: names' =>
            if String.eqb o "-f" then rm_f names' fs
            else other args input fs
        | [] => other args input fs
        end
      else other args input fs
  end.

(** A simple command: words are expanded first, then the file named after
    [>] is emptied, the program runs, and what it printed is in the file. *)
Definition run_simple (c : simple) (input : string) (fs : files) : outcome :=
  let args := expand_args fs (argv c) in
  match into c with
  | None => utility args input fs
  | Some f =>
      let r := utility args input (<[f := ""]> fs) in
      Outcome (status r) "" (<[f := stdout r]> (after r))
  end.

(** A pipeline: each command reads what the one before printed; the exit
    status is the last command's. *)
Fixpoint run_pipeline (cs : list simple) (input : string) (fs : files)
    : outcome :=
  match cs with
  | [] => Outcome 0 input fs
  | [c] => run_simple c input fs
  | c :: cs' =>
      let r := run_simple c input fs in
      run_pipeline cs' (stdout r) (after r)
  end.

Definition run_line (l : string) (fs : files) : outcome :=
  run_pipeline (parse nothing (lex false None l)) "" fs.

(** make runs the lines of a recipe in order, each in its own shell, and
    gives up at the first one that exits with a non-zero status. *)
Fixpoint run_recipe (ls : list string) (fs : files) : nat * files :=
  match ls with
  | [] => (0, fs)
  | l :: ls' =>
      let r := run_line l fs in
      match status r with
      | 0 => run_recipe ls' (after r)
      | S _ => (status r, after r)
      end
  end.

(** The recipe of target [t], run once its prerequisites are up to date.
    A target without a rule cannot be made (status 2). *)
Definition run_target (mf : Make.makefile) (t : string) (fs : files)
    : nat * files :=
  match Make.find_rule (names fs) mf t with
  | Some r => run_recipe (Make.commands (names fs) mf r) fs
  | None => (2, fs)
  end.

End Run.

(** *** Stand-ins for concrete runs *)

(** The SHA-1 digests of the empty input and of [abc]; every other input
    is given the first. *)
Definition known_sha1 (bytes : string) : string :=
  if String.eqb bytes "abc" then "a9993e364706816aba3e25717850c26c9cd0d89d"
  else "da39a3ee5e6b4b0d3255bfef95601890afd80709".

(** Programs outside the model that do nothing and succeed, and that do
    nothing and fail. *)
Definition succeeds (args : list string) (input : string) (fs : files)
    : outcome :=
  Outcome 0 "" fs.

Definition fails (args : list string) (input : string) (fs : files)
    : outcome :=
  Outcome 1 "" fs.

(** A sub-MCU directory whose recorded hash is the digest of [out.bin]. *)
Definition submcu_dir : files :=
  <["out.bin" := "abc"]>
    (<["software23.sha1" := known_sha1 "abc" +:+ Str.newline]>
       (<["software23.asm" := "; source"]> ∅)).

(** A main-MCU directory whose recorded hash is the digest of [out.bin]. *)
Definition mainmcu_dir : files :=
  <["out.bin" := "abc"]>
    (<["pu1666a_mainmcu.sha1" := known_sha1 "abc" +:+ Str.newline]>
       (<["pu1666a_mainmcu.asm" := "; source"]> ∅)).

End Sh.

(** ** The faceplate display driver

    [avr/faceplate.h] declares the driver's four functions; their bodies
    are in [faceplate.c], which is not covered here. *)

Module Faceplate.

Section Driver.

(** [upd_state_t] is defined in [updemu.h], which is not covered here; the
    driver only reads and compares it. *)
Context {upd_state : Type} `{EqDecision upd_state}.

(** What is written to the SPI peripheral's configuration registers, and
    the frames that go over the bus: the header fixes neither. *)
Context {spi_config frame : Type}.
Variable faceplate_config : spi_config.
Variable upd_frame : upd_state → frame.

(** The driver's side of the hardware: the configuration of the SPI
    peripheral ([None] before it is configured), the frames transmitted so
    far, oldest first, and the state that went out with the last
    transmission ([None] before the first one). *)
Record driver := Driver {
  config : option spi_config;
  sent : list frame;
  last_sent : option upd_state
}.

Definition power_on : driver :=
  {| config := None; sent := []; last_sent := None |}.

(** Modelled from the spec: the body of [faceplate_spi_init] is missing;
    it "configures the SPI peripheral for communication with the
    faceplate's display controller" and returns nothing. *)
Definition faceplate_spi_init (d : driver) : driver :=
  {| config := Some faceplate_config;
     sent := sent d;
     last_sent := last_sent d |}.

(** Modelled from the spec: the body of [faceplate_send_upd_command] is
    missing; it "transmits a formatted command derived from current state
    to the display controller".  The C function has no parameter and finds
    the state in the driver's own storage; here it is the argument [s]. *)
Definition faceplate_send_upd_command (s : upd_state) (d : driver) : driver :=
  {| config := config d;
     sent := sent d ++ [upd_frame s];
     last_sent := Some s |}.

(** Modelled from the spec: the decision the design notes single out, "an
    explicit comparison between a cached snapshot and incoming state,
    returned as a boolean". *)
Definition is_dirty (s : upd_state) (d : driver) : bool :=
  bool_decide (last_sent d ≠ Some s).

(** Modelled from the spec: the body of
    [faceplate_update_from_upd_if_dirty] is missing; it "reads the shared
    state, compares against previously transmitted state (dirty-check), and
    calls the send path only if changed".  The argument [s] is the content
    of [*state] at the call; the result gives the content of [*state] at the
    return, and the driver. *)
Definition faceplate_update_from_upd_if_dirty (s : upd_state) (d : driver)
    : upd_state * driver :=
  if is_dirty s d then (s, faceplate_send_upd_command s d) else (s, d).

(** How many SPI transmissions took the driver from [d] to [d']. *)
Definition transmissions (d d' : driver) : nat :=
  length (sent d') - length (sent d).

End Driver.

End Faceplate.

(** ** [find], as the firmware Makefile's [clean] calls it *)

Module Tools.

(** The last component of a path. *)
Definition basename (p : string) : string := List.last (Str.fields "/" p) "".

(** [find . -depth -name PAT -print -delete] over regular files, named by
    their path below the starting directory: every file whose last
    component matches [PAT] is printed and removed. *)
Definition find_delete (pat : string) (fs : Sh.files) : Sh.outcome :=
  let hits :=
    List.filter (fun p => Glob.matches pat (basename p)) (Sh.names fs) in
  Sh.Outcome 0 (Sh.unlines (map (fun p => "./" +:+ p) hits))
    (foldr delete fs hits).

Definition find (args : list string) (fs : Sh.files) : option Sh.outcome :=
  match args with
  | [start; o1; o2; pat; o3; o4] =>
      if String.eqb start "." && String.eqb o1 "-depth"
         && String.eqb o2 "-name" && String.eqb o3 "-print"
         && String.eqb o4 "-delete"
      then Some (find_delete pat fs)
      else None
  | _ => None
  end.

(** The programs outside the shell model, with [find] among them. *)
Definition with_find (other : list string → string → Sh.files → Sh.outcome)
    (args : list string) (input : string) (fs : Sh.files) : Sh.outcome :=
  match args with
  | prog :: rest =>
      if String.eqb prog "find" then
        match find rest fs with
        | Some r => r
        | None => other args input fs
        end
      else other args input fs
  | [] => other args input fs
  end.

(** What the four lines of the firmware's [clean] recipe remove. *)
Definition removable (name : string) : bool :=
  Glob.matches "*.elf" name || Glob.matches "*.hex" name
  || Glob.matches "*.o" name || Glob.matches "*.pyc" name.

(** [mv A B] on regular files: [A] is renamed to [B], replacing it; it is
    an error when [A] is missing or [B] is [A] itself. *)
Definition mv (a b : string) (fs : Sh.files) : Sh.outcome :=
  match fs !! a with
  | Some bytes =>
      if String.eqb a b then Sh.Outcome 1 "" fs
      else Sh.Outcome 0 "" (<[b := bytes]> (delete a fs))
  | None => Sh.Outcome 1 "" fs
  end.

(** The programs outside the shell model, with [mv] among them. *)
Definition with_mv (other : list string → string → Sh.files → Sh.outcome)
    (args : list string) (input : string) (fs : Sh.files) : Sh.outcome :=
  match args with
  | [prog; a; b] =>
      if String.eqb prog "mv" then mv a b fs else other args input fs
  | _ => other args input fs
  end.

(** An assembler stand-in that writes the listing next to the source, and
    a main-MCU directory with the source only. *)
Definition lists (args : list string) (input : string) (fs : Sh.files)
    : Sh.outcome :=
  Sh.Outcome 0 "" (<["pu1666a_mainmcu.lst" := "listing"]> fs).

Definition source_dir : Sh.files :=
  <["pu1666a_mainmcu.asm" := "; source"]> (<["out.hlr" := "h"]> ∅).

(** A firmware tree, for concrete runs. *)
Definition sample_tree : Sh.files :=
  <["Makefile" := "m"]>
    (<["main.c" := "c"]>
       (<["kwp1281.elf" := "e"]>
          (<["kwp1281.hex" := "h"]>
             (<["host/util.pyc" := "p"]>
                (<["host/util.py" := "y"]> ∅))))).

End Tools.

(** ** The CI script [.travis.yml] *)

Module Ci.

(** The lines under [script:]. *)
Definition script : list string :=
  [ "make -C faceplate_emulator/firmware";
    "python faceplate_emulator/host/setup.py test -q";
    "make -C kwp1281_tool/firmware";
    "make -C reverse_engineering/premium_4/disasm/pu1666a_mainmcu";
    "make -C reverse_engineering/premium_4/disasm/pu1666a_submcu";
    "make -C volume_monitor/firmware";
    "make -C tape_emulator/firmware" ].

(** [make -C DIR GOAL...]: the directory and the goals named. *)
Definition make_call (l : string) : option (string * list string) :=
  match String.words l with
  | prog :: opt :: d :: goals =>
      if String.eqb prog "make" && String.eqb opt "-C" then Some (d, goals)
      else None
  | _ => None
  end.

Definition make_calls : list (string * list string) :=
  omap make_call script.

(** What [make] remakes when no goal is named: the default goal. *)
Definition plain_make (dir : list string) (mf : Make.makefile)
    : list string :=
  match Make.default_goal dir mf with
  | Some g => Make.build dir mf g
  | None => []
  end.

End Ci.

(** ** Bringing a target up to date *)

Module Gmake.

(** A run of make: the files, the targets dealt with so far, and whether
    an error has stopped the run. *)
Record state := State {
  files : Sh.files;
  seen : list string;
  failed : bool
}.

Definition start (fs : Sh.files) : state :=
  {| files := fs; seen := []; failed := false |}.

Definition mark (t : string) (st : state) : state :=
  {| files := files st; seen := t :: seen st; failed := failed st |}.

Definition fail (st : state) : state :=
  {| files := files st; seen := seen st; failed := true |}.

(** make's exit status: 0, or 2 after an error. *)
Definition exit (st : state) : nat := if failed st then 2 else 0.

Section Update.

Variable sha1_hex : string → string.
Variable other : list string → string → Sh.files → Sh.outcome.

(** Time stamps are not part of the file model.  For a target whose file
    exists and that has prerequisites, whether make finds it out of date
    (a prerequisite is newer) is this parameter; make decides it once for
    each target of a run. *)
Variable outdated : string → bool.

Variable mf : Make.makefile.

(** The names in the directory when the Makefile is read: targets and
    prerequisites are expanded then. *)
Variable dir0 : list string.

(** The lines of a recipe, in order; the first that exits with a non-zero
    status stops the run. *)
Fixpoint run_lines (ls : list string) (st : state) : state :=
  match ls with
  | [] => st
  | l :: ls' =>
      let r := Sh.run_line sha1_hex other l (files st) in
      let st' := {| files := Sh.after r; seen := seen st;
                    failed := failed st |} in
      match Sh.status r with
      | 0 => run_lines ls' st'
      | S _ => fail st'
      end
  end.

Definition prerequisites (r : Make.rule) : list string :=
  String.words (Make.expand dir0 mf (Make.prereqs r)).

(** A target is remade when its file is missing, or when it has
    prerequisites and is out of date. *)
Definition remake (r : Make.rule) (t : string) (st : state) : bool :=
  match files st !! t with
  | None => true
  | Some _ =>
      match prerequisites r with
      | [] => false
      | _ :: _ => outdated t
      end
  end.

(** One target: nothing after an error, nothing for a target already
    dealt with.  Without a rule the file must be there.  With a rule the
    prerequisites come first, in the order written; then the recipe runs
    if the target is to be remade, its lines expanded as the recipe
    starts.  Built-in rules and circular prerequisites are left out (the
    fuel runs out on a cycle). *)
Fixpoint update (fuel : nat) (st : state) (t : string) : state :=
  match fuel with
  | 0 => fail st
  | S f =>
      if failed st then st
      else if bool_decide (t ∈ seen st) then st
      else
        match Make.find_rule dir0 mf t with
        | None =>
            match files st !! t with
            | Some _ => mark t st
            | None => fail st
            end
        | Some r =>
            let st1 := foldl (update f) st (prerequisites r) in
            if failed st1 then st1
            else if remake r t st1 then
              mark t (run_lines
                        (Make.commands (Sh.names (files st1)) mf r) st1)
            else mark t st1
        end
  end.

End Update.

(** [make t] in a directory with the files [fs]. *)
Definition make (sha1_hex : string → string)
    (other : list string → string → Sh.files → Sh.outcome)
    (outdated : string → bool) (mf : Make.makefile) (t : string)
    (fs : Sh.files) : state :=
  update sha1_hex other outdated mf (Sh.names fs)
    (S (length (Make.rules mf))) (start fs) t.

(** The run at the point where [make t] has dealt with the prerequisites
    of [t] and is about to look at [t] itself. *)
Definition before (sha1_hex : string → string)
    (other : list string → string → Sh.files → Sh.outcome)
    (outdated : string → bool) (mf : Make.makefile) (t : string)
    (fs : Sh.files) : state :=
  match Make.find_rule (Sh.names fs) mf t with
  | Some r =>
      foldl (update sha1_hex other outdated mf (Sh.names fs)
               (length (Make.rules mf)))
            (start fs) (prerequisites mf (Sh.names fs) r)
  | None => start fs
  end.

(** *** Directories for concrete runs *)

Definition never (t : string) : bool := false.

(** A main-MCU directory where everything has been built, with a recorded
    hash that is not the digest of [out.bin], and a file named [diff]. *)
Definition stale_main : Sh.files :=
  <["diff" := ""]>
    (<["out.bin" := "abc"]>
       (<["out.lst" := "listing"]>
          (<["pu1666a_mainmcu.sha1" := Sh.known_sha1 "" +:+ Str.newline]>
             (<["pu1666a_mainmcu.asm" := "; source"]> ∅)))).

(** Built directories whose recorded hash is the digest of [out.bin]. *)
Definition built_main : Sh.files :=
  <["out.lst" := "listing"]> Sh.mainmcu_dir.

Definition built_sub : Sh.files :=
  <["out.hex" := "hex"]>
    (<["out.lmf" := "lmf"]> (<["out.prn" := "prn"]> Sh.submcu_dir)).

End Gmake.

(** ** The programs a recipe line calls *)

Module Invoke.

(** Characters that, outside single quotes, make the shell do more than run
    the words of a line as one pipeline: separators and lists, background,
    substitution, grouping, input redirection, escapes, double quotes,
    comments and line ends. *)
Definition special (c : ascii) : bool :=
  Str.has_char c (";&`$()<\#" +:+ Str.dquote +:+ Str.newline).

(** No special character outside single quotes. *)
Fixpoint ordinary (quoted : bool) (s : string) : bool :=
  match s with
  | "" => true
  | String c s' =>
      if quoted then ordinary (negb (Ascii.eqb c "'")) s'
      else if Ascii.eqb c "'" then ordinary true s'
      else negb (special c) && ordinary false s'
  end.

Definition program (c : Sh.simple) : string :=
  match Sh.argv c with
  | (w, _) :: _ => w
  | [] => ""
  end.

(** The programs the shell starts for a line, one for each command of its
    pipeline; [None] for a line that is not a plain pipeline. *)
Definition invoked (line : string) : option (list string) :=
  if ordinary false line
  then Some (map program (Sh.parse Sh.nothing (Sh.lex false None line)))
  else None.

(** A file name made of characters the shell takes literally and keeps in
    one command: none of the special ones, no quote, pipe or [>]. *)
Fixpoint tame (s : string) : bool :=
  match s with
  | "" => true
  | String c s' =>
      negb (special c) && negb (Ascii.eqb c "'") && negb (Ascii.eqb c "|")
      && negb (Ascii.eqb c ">") && tame s'
  end.

End Invoke.

(** * Properties *)

(** ** Concrete runs of the definitions *)

Example glob_out :
  map (Glob.matches "out.*")
      [ "out.bin"; "out.sha1"; "out."; "out"; "software23.asm";
        "pu1666a_mainmcu.sha1" ]
  = [ true; true; true; false; false; false ].
Proof. reflexivity. Qed.

Example lex_hash_line :
  Sh.parse Sh.nothing
    (Sh.lex false None "openssl sha1 out.bin | cut -d ' ' -f 2 > out.sha1")
  = [ Sh.Simple [("openssl", false); ("sha1", false); ("out.bin", false)]
        None;
      Sh.Simple [("cut", false); ("-d", false); (" ", false); ("-f", false);
                 ("2", false)]
        (Some "out.sha1") ].
Proof. reflexivity. Qed.

Example lex_quoted_pattern :
  Sh.lex false None "find . -depth -name '*.o'   -print -delete"
  = [ Sh.TWord "find" false; Sh.TWord "." false; Sh.TWord "-depth" false;
      Sh.TWord "-name" false; Sh.TWord "*.o" false; Sh.TWord "-print" false;
      Sh.TWord "-delete" false ].
Proof. reflexivity. Qed.

Example cut_fields :
  Sh.cut " " "2"
    ("a b c" +:+ Str.newline +:+ "abc" +:+ Str.newline +:+ "x ")
  = Some ("b" +:+ Str.newline +:+ "abc" +:+ Str.newline +:+ Str.newline).
Proof. reflexivity. Qed.

Example firmware_all :
  Make.build Make.sample_dir Make.kwp1281_mk "all"
  = [ "find . -depth -name '*.elf' -print -delete";
      "find . -depth -name '*.hex' -print -delete";
      "find . -depth -name '*.o'   -print -delete";
      "find . -depth -name '*.pyc' -print -delete";
      "avr-gcc -mmcu=atmega1284 -g -Wall -Os -std=c99 -DF_CPU=20000000 -I. -o kwp1281.elf kwp1281.c main.c uart.c";
      "avr-objcopy -j .text -j .data -O ihex kwp1281.elf kwp1281.hex";
      "avrdude -c atmelice -p atmega1284 -U lfuse:w:0xF7:m -U hfuse:w:0x92:m -U efuse:w:0xFF:m";
      "avrdude -c atmelice -p atmega1284 -U flash:w:kwp1281.hex" ].
Proof. vm_compute. reflexivity. Qed.

Example submcu_all :
  Make.build [] Make.submcu_mk "all"
  = [ "rm -f out.*";
      "ra78k0 -cf0831y -oout.rel -pout.prn software23.asm";
      "lk78k0 out.rel";
      "oc78k0 out.lmf";
      "srec_cat out.hex -intel -o out.bin -binary";
      "python checksum.py out.bin";
      "openssl sha1 out.bin | cut -d ' ' -f 2 > out.sha1";
      "diff software23.sha1 out.sha1" ].
Proof. vm_compute. reflexivity. Qed.

(** The recorded hash matches: [diff] succeeds and leaves [out.sha1]. *)
Example mainmcu_diff_same :
  Sh.run_target Sh.known_sha1 Sh.succeeds Make.mainmcu_mk "diff"
    Sh.mainmcu_dir
  = (0, <["out.sha1" := Sh.known_sha1 "abc" +:+ Str.newline]> Sh.mainmcu_dir).
Proof. vm_compute. reflexivity. Qed.

(** Another [out.bin]: [diff] fails with status 1. *)
Example mainmcu_diff_differs :
  (Sh.run_target Sh.known_sha1 Sh.succeeds Make.mainmcu_mk "diff"
     (<["out.bin" := "abd"]> Sh.mainmcu_dir)).1 = 1.
Proof. vm_compute. reflexivity. Qed.

Example submcu_diff_differs :
  (Sh.run_target Sh.known_sha1 Sh.succeeds Make.submcu_mk "diff"
     (<["out.bin" := "abd"]> Sh.submcu_dir)).1 = 1.
Proof. vm_compute. reflexivity. Qed.

(** [clean] after [diff]: [out.bin] and [out.sha1] are gone. *)
Example mainmcu_clean :
  Sh.run_target Sh.known_sha1 Sh.succeeds Make.mainmcu_mk "clean"
    (<["out.sha1" := Sh.known_sha1 "abc" +:+ Str.newline]> Sh.mainmcu_dir)
  = (0, delete "out.bin" Sh.mainmcu_dir).
Proof. vm_compute. reflexivity. Qed.

(** ** The header *)

Lemma faceplate_h_lines :
  map Cpp.classify Cpp.faceplate_h =
    [ Cpp.LIfndef "FACEPLATE_H"; Cpp.LDefine "FACEPLATE_H"; Cpp.LBlank;
      Cpp.LInclude "stdint.h"; Cpp.LInclude "updemu.h"; Cpp.LBlank;
      Cpp.LText "void faceplate_spi_init();";
      Cpp.LText "void faceplate_clear_display();";
      Cpp.LText "void faceplate_send_upd_command();";
      Cpp.LText "void faceplate_update_from_upd_if_dirty(upd_state_t *state);";
      Cpp.LBlank; Cpp.LEndif ].
Proof. reflexivity. Qed.

(** C5: every text line of [faceplate.h] is the declaration of one of the
    driver's four functions, and each of the four is declared with return
    type [void]. *)
Theorem faceplate_functions_return_void :
  map Cpp.parse_decl (Cpp.own_text Cpp.faceplate_h) =
    [ Some (Cpp.Decl "void" "faceplate_spi_init" "");
      Some (Cpp.Decl "void" "faceplate_clear_display" "");
      Some (Cpp.Decl "void" "faceplate_send_upd_command" "");
      Some (Cpp.Decl "void" "faceplate_update_from_upd_if_dirty"
              "upd_state_t *state") ]
  ∧ Forall (fun d => Cpp.ret_type d = "void")
           (Cpp.declarations Cpp.faceplate_h).
Proof.
  split; [reflexivity|].
  repeat constructor.
Qed.

Section IncludeGuard.

Variable other_header : string → gset string → list string * gset string.

Abbreviation file := (Cpp.file other_header).
Abbreviation include :=
  (fun d h st =>
     match Cpp.repo_header h with
     | Some body => file d body st
     | None => Cpp.include_other other_header h st
     end).

Lemma file_unfold d ls st :
  file (S d) ls st = foldl (Cpp.exec (include d)) st (map Cpp.classify ls).
Proof.
  cbn [Cpp.file]. generalize dependent st.
  induction ls as [|l ls IH]; intros st; [reflexivity|].
  cbn [foldl map]. apply IH.
Qed.

Lemma foldl_line {A B} (f : A → B → A) (a : A) (x : B) (l : list B) :
  foldl f a (x :: l) = foldl f (f a x) l.
Proof. reflexivity. Qed.

Lemma push_mk b m cs o e :
  Cpp.push b (Cpp.State m cs o e) = Cpp.State m (b :: cs) o e.
Proof. reflexivity. Qed.

Lemma pop_mk m cs o e :
  Cpp.pop (Cpp.State m cs o e) = Cpp.State m (tail cs) o e.
Proof. reflexivity. Qed.

Lemma define_mk x m cs o e :
  Cpp.define x (Cpp.State m cs o e) = Cpp.State ({[ x ]} ∪ m) cs o e.
Proof. reflexivity. Qed.

Lemma emit_mk ls m cs o e :
  Cpp.emit ls (Cpp.State m cs o e) = Cpp.State m cs (o ++ ls) e.
Proof. reflexivity. Qed.

Lemma include_other_mk h m cs o e :
  Cpp.include_other other_header h (Cpp.State m cs o e)
  = Cpp.State (other_header h m).2 cs (o ++ (other_header h m).1) e.
Proof. reflexivity. Qed.

(** With the guard macro defined, the whole header is one skipped group. *)
Lemma faceplate_h_skipped d st :
  "FACEPLATE_H" ∈ Cpp.defined st → file (S d) Cpp.faceplate_h st = st.
Proof.
  intros Hdef. rewrite file_unfold, faceplate_h_lines.
  cbn [foldl Cpp.exec].
  rewrite bool_decide_eq_false_2 by (intros Hn; exact (Hn Hdef)).
  destruct st as [m cs o e]. reflexivity.
Qed.

(** Without it, the group is kept: the macro is defined, the two headers
    are included, the four declarations are emitted. *)
Lemma faceplate_h_kept d st :
  "FACEPLATE_H" ∉ Cpp.defined st → Cpp.active st = true →
  let m0 := {[ "FACEPLATE_H" ]} ∪ Cpp.defined st in
  let r1 := other_header "stdint.h" m0 in
  let r2 := other_header "updemu.h" r1.2 in
  file (S d) Cpp.faceplate_h st =
    {| Cpp.defined := r2.2;
       Cpp.conds := Cpp.conds st;
       Cpp.out := Cpp.out st ++ r1.1 ++ r2.1 ++ Cpp.own_text Cpp.faceplate_h;
       Cpp.too_deep := Cpp.too_deep st |}.
Proof.
  intros Hdef Hact m0 r1 r2. rewrite file_unfold, faceplate_h_lines.
  destruct st as [m cs o e]. unfold Cpp.active in Hact. cbn in Hact, Hdef.
  subst r1 r2 m0.
  cbn [Cpp.defined Cpp.conds Cpp.out Cpp.too_deep].
  rewrite foldl_line.
  cbn [Cpp.exec Cpp.push Cpp.defined Cpp.conds Cpp.out Cpp.too_deep].
  rewrite bool_decide_eq_true_2 by exact Hdef.
  do 11 (rewrite foldl_line;
         cbn [Cpp.exec Cpp.active Cpp.push Cpp.pop Cpp.define Cpp.emit
              Cpp.include_other Cpp.repo_header String.eqb Ascii.eqb
              Bool.eqb Cpp.defined
              Cpp.conds Cpp.out Cpp.too_deep forallb id andb tail fst snd];
         rewrite ?Hact).
  cbn [foldl].
  repeat (rewrite push_mk || rewrite pop_mk || rewrite define_mk
          || rewrite emit_mk || rewrite include_other_mk).
  cbn [tail]. f_equal.
  rewrite <- !app_assoc. reflexivity.
Qed.

Lemma include_line :
  Cpp.classify Cpp.include_faceplate = Cpp.LInclude "faceplate.h".
Proof. reflexivity. Qed.

(** Once the guard is defined, further inclusions change nothing. *)
Lemma repeated_inclusion d n st :
  "FACEPLATE_H" ∈ Cpp.defined st →
  file (S (S d)) (Cpp.unit_of n) st = st.
Proof.
  intros Hdef. rewrite file_unfold. unfold Cpp.unit_of.
  induction n as [|n IH]; [reflexivity|].
  cbn [replicate map foldl]. rewrite include_line. cbn [Cpp.exec].
  destruct (Cpp.active st); [|exact IH].
  change (Cpp.repo_header "faceplate.h") with (Some Cpp.faceplate_h).
  cbv beta iota. rewrite faceplate_h_skipped by exact Hdef. exact IH.
Qed.

Hypothesis guard_kept :
  ∀ h m, "FACEPLATE_H" ∈ m → "FACEPLATE_H" ∈ (other_header h m).2.

(** C10: a translation unit that includes [faceplate.h] once or more is
    preprocessed to the same result as one that includes it once, and that
    result holds the header's four declarations once, after what the two
    headers it includes emit; provided those two headers leave the guard
    macro [FACEPLATE_H] defined. *)
Theorem include_guard_idempotent (d n : nat) :
  let once := Cpp.translate other_header (S (S d)) 1 in
  let r1 := other_header "stdint.h" {[ "FACEPLATE_H" ]} in
  let r2 := other_header "updemu.h" r1.2 in
  Cpp.translate other_header (S (S d)) (S n) = once
  ∧ Cpp.out once =
      r1.1 ++ r2.1 ++
      [ "void faceplate_spi_init();";
        "void faceplate_clear_display();";
        "void faceplate_send_upd_command();";
        "void faceplate_update_from_upd_if_dirty(upd_state_t *state);" ]
  ∧ Cpp.conds once = []
  ∧ Cpp.too_deep once = false.
Proof.
  intros once r1 r2.
  assert (Honce : once =
    {| Cpp.defined := r2.2; Cpp.conds := [];
       Cpp.out := (r1.1 ++ r2.1 ++ Cpp.own_text Cpp.faceplate_h)%list;
       Cpp.too_deep := false |}).
  { subst once. unfold Cpp.translate. rewrite file_unfold.
    change (Cpp.unit_of 1) with [Cpp.include_faceplate].
    cbn [map foldl]. rewrite include_line. cbn [Cpp.exec].
    change (Cpp.active Cpp.init) with true.
    change (Cpp.repo_header "faceplate.h") with (Some Cpp.faceplate_h).
    cbv beta iota.
    rewrite faceplate_h_kept by (done || set_solver).
    cbn [Cpp.init Cpp.defined Cpp.conds Cpp.out Cpp.too_deep].
    subst r1 r2. rewrite (right_id_L ∅ (∪)). reflexivity. }
  split; [|rewrite Honce; repeat split; reflexivity].
  unfold Cpp.translate.
  change (Cpp.unit_of (S n)) with (Cpp.include_faceplate :: Cpp.unit_of n).
  rewrite file_unfold. cbn [map]. rewrite foldl_line, <- file_unfold.
  change (Cpp.exec _ Cpp.init (Cpp.classify Cpp.include_faceplate)) with once.
  apply repeated_inclusion. rewrite Honce. cbn [Cpp.defined].
  subst r2. apply guard_kept. subst r1. apply guard_kept. set_solver.
Qed.

End IncludeGuard.

(** ** Strings *)

Lemma append_empty_r (s : string) : s +:+ "" = s.
Proof.
  induction s as [|a s IH]; [reflexivity|].
  unfold String.app in *. cbn. by rewrite IH.
Qed.

Lemma append_cons (a : ascii) (s t : string) :
  String a s +:+ t = String a (s +:+ t).
Proof. reflexivity. Qed.

Lemma append_assoc (s t u : string) : (s +:+ t) +:+ u = s +:+ t +:+ u.
Proof.
  induction s as [|a s IH]; [reflexivity|].
  rewrite !append_cons. by rewrite IH.
Qed.

Lemma rev_app_app (s t : string) :
  String.rev_app s t = String.rev_app s "" +:+ t.
Proof.
  revert t. induction s as [|a s IH]; intros t; [reflexivity|].
  cbn [String.rev_app]. rewrite IH, (IH (String a "")).
  by rewrite append_assoc.
Qed.

Lemma rev_app_rev_app (s t u : string) :
  String.rev_app (String.rev_app s t) u = String.rev_app t (s +:+ u).
Proof.
  revert t u. induction s as [|a s IH]; intros t u; [reflexivity|].
  cbn [String.rev_app]. rewrite IH. reflexivity.
Qed.

Lemma rev_rev (s : string) : String.rev (String.rev s) = s.
Proof.
  unfold String.rev. rewrite rev_app_rev_app. cbn. apply append_empty_r.
Qed.

(** *** Words *)

Lemma words_go_plain (w c rest : string) :
  Str.plain w = true →
  String.words_go (Some c) (w +:+ rest)
  = String.words_go (Some (String.rev_app w c)) rest.
Proof.
  revert c. induction w as [|a w IH]; intros c Hw; [reflexivity|].
  cbn in Hw. apply andb_true_iff in Hw as [Ha Hw].
  rewrite append_cons. cbn [String.words_go String.rev_app].
  destruct (Ascii.is_space a); [discriminate|].
  cbn [from_option]. by apply IH.
Qed.

Lemma words_go_word (w rest : string) :
  Str.plain w = true → w ≠ "" →
  String.words_go None (w +:+ rest)
  = String.words_go (Some (String.rev w)) rest.
Proof.
  destruct w as [|a w]; [done|]. intros Hw _.
  cbn in Hw. apply andb_true_iff in Hw as [Ha Hw].
  rewrite append_cons. cbn [String.words_go].
  destruct (Ascii.is_space a); [discriminate|].
  cbn [from_option]. by rewrite words_go_plain.
Qed.

Lemma words_join (l : list string) :
  Forall (fun w => Str.plain w = true ∧ w ≠ "") l →
  String.words (Str.join " " l) = l.
Proof.
  unfold String.words.
  induction 1 as [|w l [Hw Hne] Hl IH]; [reflexivity|].
  destruct l as [|w' l].
  - cbn [Str.join]. rewrite <- (append_empty_r w) at 1.
    rewrite words_go_word by done.
    cbn [String.words_go fmap option_fmap option_map option_list].
    by rewrite rev_rev.
  - change (Str.join " " (w :: w' :: l))
      with (w +:+ String " " (Str.join " " (w' :: l))).
    rewrite words_go_word by done.
    cbn [String.words_go Ascii.is_space fmap option_fmap option_map
         option_list app].
    by rewrite rev_rev, IH.
Qed.

(** ** The firmware Makefile *)

Section Kwp1281.

Variable dir : list string.

Abbreviation mk := Make.kwp1281_mk.
Abbreviation sources := (Str.join " " (List.filter (Glob.matches "*.c") dir)).

Lemma kwp1281_targets :
  map (fun r => Make.expand dir mk (Make.target r)) (Make.rules mk) =
    [ "kwp1281.hex"; "kwp1281.elf"; "program"; "size"; "dump"; "clean";
      "arduino_mega"; "all" ].
Proof. reflexivity. Qed.

Lemma find_rule_none (mf : Make.makefile) (t : string) :
  t ∉ map (fun r => Make.expand dir mf (Make.target r)) (Make.rules mf) →
  Make.find_rule dir mf t = None.
Proof.
  unfold Make.find_rule. induction (Make.rules mf) as [|r rs IH]; [done|].
  cbn [map List.find]. intros Hnot.
  apply not_elem_of_cons in Hnot as [Hne Hnot].
  destruct (String.eqb_spec (Make.expand dir mf (Make.target r)) t);
    [congruence | by apply IH].
Qed.

(** A C source file is not a target of the Makefile. *)
Lemma source_has_no_rule (f : string) :
  Glob.matches "*.c" f = true → Make.find_rule dir mk f = None.
Proof.
  intros Hm. apply find_rule_none. rewrite kwp1281_targets.
  rewrite !elem_of_cons, elem_of_nil.
  intros H; repeat destruct H as [H|H]; try done; subst f; discriminate.
Qed.

Lemma plan_unfold f seen t :
  Make.plan dir mk (S f) seen t =
    if bool_decide (t ∈ seen) then ([], seen)
    else match Make.find_rule dir mk t with
         | None => ([], t :: seen)
         | Some r =>
             let before :=
               foldl (fun (acc : list string * list string) p =>
                        let r' := Make.plan dir mk f acc.2 p in
                        (acc.1 ++ r'.1, r'.2))
                     ([], t :: seen)
                     (String.words (Make.expand dir mk (Make.prereqs r))) in
             (before.1 ++ Make.commands dir mk r, before.2)
         end.
Proof. reflexivity. Qed.

(** Prerequisites without a rule add no command. *)
Lemma plan_leaves f (ws seen : list string) :
  Forall (fun w => Make.find_rule dir mk w = None) ws →
  (foldl (fun (acc : list string * list string) p =>
            let r' := Make.plan dir mk f acc.2 p in (acc.1 ++ r'.1, r'.2))
         ([], seen) ws).1 = [].
Proof.
  intros Hws. revert seen.
  induction Hws as [|w ws Hw Hws IH]; intros seen; [reflexivity|].
  cbn [foldl fst snd].
  assert (Hnil : (Make.plan dir mk f seen w).1 = []).
  { destruct f as [|f]; [reflexivity|].
    rewrite plan_unfold, Hw. by case_bool_decide. }
  rewrite Hnil. apply IH.
Qed.

Hypothesis names_plain : Forall (fun f => Str.plain f = true) dir.

Lemma words_sources :
  String.words sources = List.filter (Glob.matches "*.c") dir.
Proof.
  apply words_join. apply Forall_forall. intros f Hf.
  apply list_elem_of_In, filter_In in Hf as [Hin Hm].
  split.
  - rewrite Forall_forall in names_plain.
    apply names_plain. by apply list_elem_of_In.
  - intros ->. discriminate.
Qed.

Lemma plan_elf f seen :
  "kwp1281.elf" ∉ seen →
  (Make.plan dir mk (S f) seen "kwp1281.elf").1 =
    [ "avr-gcc -mmcu=atmega1284 -g -Wall -Os -std=c99 -DF_CPU=20000000 -I. -o kwp1281.elf "
      +:+ sources ].
Proof.
  intros Hseen. rewrite plan_unfold, bool_decide_eq_false_2 by done.
  change (Make.find_rule dir mk "kwp1281.elf")
    with (Some (Make.Rule "$(PROJECT).elf" "$(SOURCES)"
                  [ "avr-gcc $(CFLAGS) -I. -o $(PROJECT).elf $(SOURCES)" ])).
  cbv beta iota zeta. cbn [fst snd Make.prereqs].
  change (Make.expand dir mk "$(SOURCES)") with ((sources +:+ "") +:+ "").
  rewrite !append_empty_r, words_sources, plan_leaves.
  - cbn [app]. unfold Make.commands. cbn [map Make.recipe].
    f_equal.
    change (Make.expand dir mk
              "avr-gcc $(CFLAGS) -I. -o $(PROJECT).elf $(SOURCES)")
      with ("avr-gcc -mmcu=atmega1284 -g -Wall -Os -std=c99 -DF_CPU=20000000 -I. -o kwp1281.elf "
            +:+ ((sources +:+ "") +:+ "")).
    by rewrite !append_empty_r.
  - apply Forall_forall. intros w Hw.
    apply list_elem_of_In, filter_In in Hw as [_ Hm].
    by apply source_has_no_rule.
Qed.

Lemma plan_hex f seen :
  "kwp1281.hex" ∉ seen → "kwp1281.elf" ∉ seen →
  (Make.plan dir mk (S (S f)) seen "kwp1281.hex").1 =
    [ "avr-gcc -mmcu=atmega1284 -g -Wall -Os -std=c99 -DF_CPU=20000000 -I. -o kwp1281.elf "
      +:+ sources;
      "avr-objcopy -j .text -j .data -O ihex kwp1281.elf kwp1281.hex" ].
Proof.
  intros Hhex Helf. rewrite plan_unfold, bool_decide_eq_false_2 by done.
  change (Make.find_rule dir mk "kwp1281.hex")
    with (Some (Make.Rule "$(PROJECT).hex" "$(PROJECT).elf"
                  [ "avr-objcopy -j .text -j .data -O ihex $(PROJECT).elf $(PROJECT).hex" ])).
  cbv beta iota zeta. cbn [fst snd Make.prereqs].
  change (String.words (Make.expand dir mk "$(PROJECT).elf"))
    with ["kwp1281.elf"].
  cbn [foldl fst snd app].
  rewrite plan_elf by (rewrite not_elem_of_cons; done).
  reflexivity.
Qed.

(** C6: a plain [make] builds [kwp1281.hex], by [avr-gcc] for the
    ATmega1284 and then [avr-objcopy -O ihex]; [make program] does the same
    and then runs [avrdude] twice, first writing the fuses (lfuse 0xF7,
    hfuse 0x92, efuse 0xFF), then writing the image to flash.  The file
    names in the directory are taken to hold no white space. *)
Theorem kwp1281_build_and_program :
  Make.default_goal dir mk = Some "kwp1281.hex"
  ∧ Make.expand dir mk "$(MMCU)" = "atmega1284"
  ∧ Make.build dir mk "kwp1281.hex" =
      [ "avr-gcc -mmcu=atmega1284 -g -Wall -Os -std=c99 -DF_CPU=20000000 -I. -o kwp1281.elf "
        +:+ sources;
        "avr-objcopy -j .text -j .data -O ihex kwp1281.elf kwp1281.hex" ]
  ∧ Make.build dir mk "program" =
      [ "avr-gcc -mmcu=atmega1284 -g -Wall -Os -std=c99 -DF_CPU=20000000 -I. -o kwp1281.elf "
        +:+ sources;
        "avr-objcopy -j .text -j .data -O ihex kwp1281.elf kwp1281.hex";
        "avrdude -c atmelice -p atmega1284 -U lfuse:w:0xF7:m -U hfuse:w:0x92:m -U efuse:w:0xFF:m";
        "avrdude -c atmelice -p atmega1284 -U flash:w:kwp1281.hex" ].
Proof.
  split; [reflexivity|]. split; [reflexivity|]. split.
  - unfold Make.build. cbn [length Make.rules mk].
    apply plan_hex; apply not_elem_of_nil.
  - unfold Make.build. cbn [length Make.rules mk].
    rewrite plan_unfold, bool_decide_eq_false_2 by apply not_elem_of_nil.
    change (Make.find_rule dir mk "program")
      with (Some (Make.Rule "program" "$(PROJECT).hex"
        [ "avrdude $(ISPFLAGS) -p $(MMCU) -U lfuse:w:0xF7:m -U hfuse:w:0x92:m -U efuse:w:0xFF:m";
          "avrdude $(ISPFLAGS) -p $(MMCU) -U flash:w:$(PROJECT).hex" ])).
    cbv beta iota zeta. cbn [fst snd Make.prereqs].
    change (String.words (Make.expand dir mk "$(PROJECT).hex"))
      with ["kwp1281.hex"].
    cbn [foldl fst snd app].
    rewrite plan_hex by (rewrite not_elem_of_cons; split; [done|apply not_elem_of_nil]).
    reflexivity.
Qed.

End Kwp1281.

(** ** The disassembly Makefiles *)

Lemma has_char_app (c : ascii) (s t : string) :
  Str.has_char c (s +:+ t) = Str.has_char c s || Str.has_char c t.
Proof.
  induction s as [|a s IH]; [reflexivity|].
  rewrite append_cons. cbn [Str.has_char]. rewrite IH. apply orb_assoc.
Qed.

Lemma fields_cons (c : ascii) (t : string) :
  ∃ f fs, Str.fields c t = f :: fs.
Proof.
  induction t as [|a t (f & fs & IH)]; [by eexists _, _|].
  cbn [Str.fields]. rewrite IH. destruct (Ascii.eqb a c); by eexists _, _.
Qed.

(** A separator-free prefix stays in the first field. *)
Lemma fields_app (c : ascii) (h t : string) :
  Str.has_char c h = false →
  Str.fields c (h +:+ t) =
    match Str.fields c t with
    | f :: fs => (h +:+ f) :: fs
    | [] => [h]
    end.
Proof.
  destruct (fields_cons c t) as (f & fs & Ht). rewrite Ht.
  induction h as [|a h IH]; intros Hh.
  - by change ("" +:+ t) with t.
  - cbn [Str.has_char] in Hh. apply orb_false_iff in Hh as [Ha Hh].
    rewrite append_cons. cbn [Str.fields]. by rewrite Ha, (IH Hh).
Qed.

Lemma fields_whole (c : ascii) (h : string) :
  Str.has_char c h = false → Str.fields c h = [h].
Proof.
  intros Hh. rewrite <- (append_empty_r h) at 1.
  rewrite fields_app by done. cbn. by rewrite append_empty_r.
Qed.

(** No digit of a hexadecimal string is a character that is not one. *)
Lemma hex_has_not (c : ascii) (h : string) :
  Str.has_char c "0123456789abcdef" = false →
  Str.hex h = true → Str.has_char c h = false.
Proof.
  intros Hc. induction h as [|a h IH]; [done|].
  change (Str.hex (String a h))
    with (Str.has_char a "0123456789abcdef" && Str.hex h).
  change (Str.has_char c (String a h))
    with (Ascii.eqb a c || Str.has_char c h).
  intros [Ha Hh]%andb_true_iff.
  rewrite IH by done. rewrite orb_false_r.
  destruct (Ascii.eqb_spec a c) as [->|]; [congruence|done].
Qed.

(** What [cut -d ' ' -f 2] makes of the line [openssl sha1 out.bin]
    prints. *)
Lemma cut_digest (h : string) :
  Str.hex h = true →
  Sh.cut " " "2" ("SHA1(" +:+ "out.bin" +:+ ")= " +:+ h +:+ Str.newline)
  = Some (h +:+ Str.newline).
Proof.
  intros Hh.
  pose proof (hex_has_not " " h eq_refl Hh) as Hsp.
  pose proof (hex_has_not "010" h eq_refl Hh) as Hnl.
  change ("SHA1(" +:+ "out.bin" +:+ ")= " +:+ h +:+ Str.newline)
    with (("SHA1(out.bin)= " +:+ h) +:+ String "010" "").
  unfold Sh.cut. change (Sh.digits 0 "2") with (Some 2).
  cbv beta iota. f_equal.
  assert (Hl : Sh.lines (("SHA1(out.bin)= " +:+ h) +:+ String "010" "")
               = ["SHA1(out.bin)= " +:+ h]).
  { unfold Sh.lines. rewrite fields_app.
    - cbn. by rewrite append_empty_r.
    - rewrite has_char_app, Hnl. reflexivity. }
  rewrite Hl. cbn [map]. unfold Sh.cut_line.
  rewrite has_char_app, orb_true_l by reflexivity.
  change ("SHA1(out.bin)= " +:+ h) with ("SHA1(out.bin)=" +:+ String " " h).
  rewrite fields_app by reflexivity.
  cbn [Str.fields Ascii.eqb Bool.eqb]. rewrite fields_whole by done.
  cbn [nth]. unfold Sh.unlines. cbn [map String.concat]. reflexivity.
Qed.

Section Recipes.

Variable sha1_hex : string → string.
Variable other : list string → string → Sh.files → Sh.outcome.

Abbreviation run_line := (Sh.run_line sha1_hex other).
Abbreviation run_recipe := (Sh.run_recipe sha1_hex other).
Abbreviation run_target := (Sh.run_target sha1_hex other).

(** *** [clean] *)

Lemma clean_line (fs : Sh.files) :
  run_line "rm -f out.*" fs
  = Sh.Outcome 0 "" (foldr delete fs (Sh.expand_word fs ("out.*", true))).
Proof.
  unfold Sh.run_line.
  change (Sh.parse Sh.nothing (Sh.lex false None "rm -f out.*"))
    with [Sh.Simple [("rm", false); ("-f", false); ("out.*", true)] None].
  cbn [Sh.run_pipeline]. unfold Sh.run_simple. cbn [Sh.into Sh.argv].
  unfold Sh.expand_args. cbn [map concat].
  change (Sh.expand_word fs ("rm", false)) with ["rm"].
  change (Sh.expand_word fs ("-f", false)) with ["-f"].
  cbn [app]. rewrite app_nil_r. reflexivity.
Qed.

(** The names [rm] is given all match the pattern, and every file that
    matches it is among them. *)
Lemma out_names (fs : Sh.files) (f : string) :
  f ∈ Sh.expand_word fs ("out.*", true)
  ↔ Glob.matches "out.*" f = true ∧ (is_Some (fs !! f) ∨
      (f = "out.*" ∧ List.filter (Glob.matches "out.*") (Sh.names fs) = [])).
Proof.
  unfold Sh.expand_word, Sh.names. cbn [fst snd].
  destruct (List.filter (Glob.matches "out.*") (elements (dom fs)))
    as [|g gs] eqn:E.
  - rewrite list_elem_of_singleton. split.
    + intros ->. split; [reflexivity | by right].
    + intros [Hm [[x Hx]|[-> _]]]; [|done].
      assert (Hin : In f (List.filter (Glob.matches "out.*")
                            (elements (dom fs)))).
      { apply filter_In. split; [|done].
        apply list_elem_of_In, elem_of_elements, elem_of_dom. by exists x. }
      rewrite E in Hin. destruct Hin.
  - rewrite <- E, list_elem_of_In, filter_In, <- list_elem_of_In.
    rewrite elem_of_elements, elem_of_dom. split.
    + intros [Hs Hm]. split; [done | by left].
    + intros [Hm [Hs|[_ Hnil]]]; [done|]. rewrite Hnil in E. discriminate.
Qed.

Lemma clean_files (fs : Sh.files) (f : string) :
  foldr delete fs (Sh.expand_word fs ("out.*", true)) !! f
  = if Glob.matches "out.*" f then None else fs !! f.
Proof.
  destruct (Glob.matches "out.*" f) eqn:Hm.
  - destruct (fs !! f) as [x|] eqn:Hx.
    + apply lookup_foldr_delete, out_names. split; [done|]. left. by exists x.
    + destruct (foldr delete fs _ !! f) as [y|] eqn:Hy; [|done].
      apply lookup_foldr_delete_Some in Hy as [_ Hy]. congruence.
  - apply lookup_foldr_delete_not_elem_of.
    intros [Hm' _]%out_names. congruence.
Qed.

(** C9: in both disassembly Makefiles, [clean] succeeds and leaves a file
    in place exactly when its name does not match [out.*]: the matching
    files are gone and every other file is as it was, among them the
    assembly sources and the recorded hashes. *)
Theorem clean_removes_only_out (fs : Sh.files) :
  let main := run_target Make.mainmcu_mk "clean" fs in
  let sub := run_target Make.submcu_mk "clean" fs in
  (main.1 = 0 ∧ sub.1 = 0)
  ∧ (∀ f, main.2 !! f = if Glob.matches "out.*" f then None else fs !! f)
  ∧ (∀ f, sub.2 !! f = if Glob.matches "out.*" f then None else fs !! f)
  ∧ main.2 !! "pu1666a_mainmcu.asm" = fs !! "pu1666a_mainmcu.asm"
  ∧ main.2 !! "pu1666a_mainmcu.sha1" = fs !! "pu1666a_mainmcu.sha1"
  ∧ sub.2 !! "software23.asm" = fs !! "software23.asm"
  ∧ sub.2 !! "software23.sha1" = fs !! "software23.sha1".
Proof.
  intros main sub.
  assert (Hmain : main = (0, foldr delete fs (Sh.expand_word fs ("out.*", true)))).
  { subst main. unfold Sh.run_target.
    change (Make.find_rule (Sh.names fs) Make.mainmcu_mk "clean")
      with (Some (Make.Rule "clean" "" ["rm -f out.*"])).
    cbv beta iota.
    change (Make.commands (Sh.names fs) Make.mainmcu_mk
              (Make.Rule "clean" "" ["rm -f out.*"]))
      with ["rm -f out.*"].
    cbn [Sh.run_recipe]. by rewrite clean_line. }
  assert (Hsub : sub = (0, foldr delete fs (Sh.expand_word fs ("out.*", true)))).
  { subst sub. unfold Sh.run_target.
    change (Make.find_rule (Sh.names fs) Make.submcu_mk "clean")
      with (Some (Make.Rule "clean" "" ["rm -f out.*"])).
    cbv beta iota.
    change (Make.commands (Sh.names fs) Make.submcu_mk
              (Make.Rule "clean" "" ["rm -f out.*"]))
      with ["rm -f out.*"].
    cbn [Sh.run_recipe]. by rewrite clean_line. }
  rewrite Hmain, Hsub. cbn [fst snd].
  repeat split; try apply clean_files; by rewrite clean_files.
Qed.

(** *** [diff] *)

Hypothesis sha1_hex_digits : ∀ bytes, Str.hex (sha1_hex bytes) = true.

(** The hashing line leaves the digest of [out.bin], and a newline, in
    [out.sha1], and succeeds. *)
Lemma digest_line (fs : Sh.files) (bin : string) :
  fs !! "out.bin" = Some bin →
  run_line "openssl sha1 out.bin | cut -d ' ' -f 2 > out.sha1" fs
  = Sh.Outcome 0 ""
      (<["out.sha1" := sha1_hex bin +:+ Str.newline]>
         (<["out.sha1" := ""]> fs)).
Proof.
  intros Hbin. unfold Sh.run_line.
  change (Sh.parse Sh.nothing
            (Sh.lex false None
               "openssl sha1 out.bin | cut -d ' ' -f 2 > out.sha1"))
    with [ Sh.Simple [("openssl", false); ("sha1", false); ("out.bin", false)]
             None;
           Sh.Simple [("cut", false); ("-d", false); (" ", false);
                      ("-f", false); ("2", false)]
             (Some "out.sha1") ].
  cbn [Sh.run_pipeline].
  change (Sh.run_simple sha1_hex other
            (Sh.Simple [("openssl", false); ("sha1", false); ("out.bin", false)]
               None) "" fs)
    with (Sh.openssl sha1_hex ["sha1"; "out.bin"] fs).
  unfold Sh.openssl. change (String.eqb "sha1" "sha1") with true.
  cbv beta iota. rewrite Hbin. cbn [Sh.stdout Sh.after].
  unfold Sh.run_simple. cbn [Sh.into].
  change (Sh.expand_args fs
            (Sh.argv (Sh.Simple [("cut", false); ("-d", false); (" ", false);
                                 ("-f", false); ("2", false)]
                        (Some "out.sha1"))))
    with ["cut"; "-d"; " "; "-f"; "2"].
  unfold Sh.utility.
  change (String.eqb "cut" "openssl") with false.
  change (String.eqb "cut" "diff") with false.
  change (String.eqb "cut" "cut") with true.
  change (String.eqb "-d" "-d" && String.eqb "-f" "-f") with true.
  cbv beta iota.
  rewrite cut_digest by apply sha1_hex_digits.
  reflexivity.
Qed.

Lemma diff_status (a b : string) (fs : Sh.files) :
  Sh.status (Sh.diff [a; b] fs) = 0
  ↔ ∃ x, fs !! a = Some x ∧ fs !! b = Some x.
Proof.
  unfold Sh.diff.
  destruct (fs !! a) as [x|], (fs !! b) as [y|]; cbn [Sh.status];
    try (split; [discriminate | by intros (? & ? & ?)]).
  destruct (String.eqb_spec x y) as [->|Hne]; split;
    try done; try by eexists.
  intros (z & [= ->] & [= ->]). done.
Qed.

(** After the hashing line, [diff G out.sha1] succeeds exactly when [G]
    holds the digest line. *)
Lemma check_status (g d : string) (fs : Sh.files) :
  g ≠ "out.sha1" →
  Sh.status
    (Sh.diff [g; "out.sha1"] (<["out.sha1" := d]> (<["out.sha1" := ""]> fs)))
  = 0
  ↔ fs !! g = Some d.
Proof.
  intros Hg. rewrite diff_status, lookup_insert_eq.
  rewrite !lookup_insert_ne by done. split.
  - by intros (x & -> & [= ->]).
  - intros ->. by eexists.
Qed.

(** A recipe succeeds when its first line does and the rest does, run on
    the files the first line leaves. *)
Lemma recipe_cons (l : string) (ls : list string) (fs : Sh.files) :
  (run_recipe (l :: ls) fs).1 = 0
  ↔ Sh.status (run_line l fs) = 0
    ∧ (run_recipe ls (Sh.after (run_line l fs))).1 = 0.
Proof.
  cbn [Sh.run_recipe].
  destruct (Sh.status (run_line l fs)); cbn [fst]; intuition congruence.
Qed.

(** The two lines of the main-MCU [diff] recipe succeed exactly when the
    recorded hash file holds the digest line of [out.bin]. *)
Lemma main_recipe_status (fs : Sh.files) (bin : string) :
  fs !! "out.bin" = Some bin →
  (run_recipe [ "openssl sha1 out.bin | cut -d ' ' -f 2 > out.sha1";
                "diff pu1666a_mainmcu.sha1 out.sha1" ] fs).1 = 0
  ↔ fs !! "pu1666a_mainmcu.sha1" = Some (sha1_hex bin +:+ Str.newline).
Proof.
  intros Hbin. rewrite !recipe_cons, (digest_line fs bin Hbin).
  cbn [Sh.status Sh.after Sh.run_recipe fst].
  change (run_line "diff pu1666a_mainmcu.sha1 out.sha1" ?f)
    with (Sh.diff ["pu1666a_mainmcu.sha1"; "out.sha1"] f).
  rewrite check_status by done. intuition.
Qed.

(** The three lines of the sub-MCU [diff] recipe succeed exactly when the
    script does and the recorded hash file then holds the digest line of
    [out.bin]. *)
Lemma sub_recipe_status (fs : Sh.files) (bin : string) :
  let checksum := other ["python"; "checksum.py"; "out.bin"] "" fs in
  Sh.after checksum !! "out.bin" = Some bin →
  (run_recipe [ "python checksum.py out.bin";
                "openssl sha1 out.bin | cut -d ' ' -f 2 > out.sha1";
                "diff software23.sha1 out.sha1" ] fs).1 = 0
  ↔ Sh.status checksum = 0
    ∧ Sh.after checksum !! "software23.sha1"
      = Some (sha1_hex bin +:+ Str.newline).
Proof.
  intros checksum Hbin. rewrite recipe_cons.
  change (run_line "python checksum.py out.bin" fs) with checksum.
  rewrite !recipe_cons, (digest_line _ bin Hbin).
  cbn [Sh.status Sh.after Sh.run_recipe fst].
  change (run_line "diff software23.sha1 out.sha1" ?f)
    with (Sh.diff ["software23.sha1"; "out.sha1"] f).
  rewrite check_status by done. intuition.
Qed.

End Recipes.

(** The build order at a concrete directory. *)
Lemma kwp1281_build_and_program_witness :
  Forall (fun f => Str.plain f = true) Make.sample_dir
  ∧ Make.build Make.sample_dir Make.kwp1281_mk "program" =
      [ "avr-gcc -mmcu=atmega1284 -g -Wall -Os -std=c99 -DF_CPU=20000000 -I. -o kwp1281.elf kwp1281.c main.c uart.c";
        "avr-objcopy -j .text -j .data -O ihex kwp1281.elf kwp1281.hex";
        "avrdude -c atmelice -p atmega1284 -U lfuse:w:0xF7:m -U hfuse:w:0x92:m -U efuse:w:0xFF:m";
        "avrdude -c atmelice -p atmega1284 -U flash:w:kwp1281.hex" ].
Proof.
  assert (Hplain : Forall (fun f => Str.plain f = true) Make.sample_dir)
    by (repeat apply Forall_cons_2; try apply Forall_nil_2; reflexivity).
  split; [exact Hplain|].
  exact (proj2 (proj2 (proj2
           (kwp1281_build_and_program Make.sample_dir Hplain)))).
Defined.

(** The include guard with stand-in headers, at three inclusions. *)
Lemma include_guard_idempotent_witness :
  (∀ h m, "FACEPLATE_H" ∈ m → "FACEPLATE_H" ∈ (Cpp.sample_header h m).2)
  ∧ Cpp.translate Cpp.sample_header 2 3 = Cpp.translate Cpp.sample_header 2 1.
Proof.
  assert (Hkeep : ∀ h m, "FACEPLATE_H" ∈ m
                         → "FACEPLATE_H" ∈ (Cpp.sample_header h m).2).
  { intros h m Hm. unfold Cpp.sample_header.
    destruct (String.eqb h "updemu.h"); [|exact Hm].
    case_bool_decide; cbn [snd]; set_solver. }
  split; [exact Hkeep|].
  exact (proj1 (include_guard_idempotent Cpp.sample_header Hkeep 0 2)).
Defined.

(** ** The faceplate driver *)

Section FaceplateDriver.

Context {upd_state : Type} `{EqDecision upd_state}.
Context {spi_config frame : Type}.
Variable faceplate_config : spi_config.
Variable upd_frame : upd_state → frame.

Abbreviation driver := (@Faceplate.driver upd_state spi_config frame).
Abbreviation send := (Faceplate.faceplate_send_upd_command upd_frame).
Abbreviation update := (Faceplate.faceplate_update_from_upd_if_dirty upd_frame).
Abbreviation spi_init := (Faceplate.faceplate_spi_init faceplate_config).

Lemma send_transmits (s : upd_state) (d : driver) :
  Faceplate.transmissions d (send s d) = 1.
Proof.
  unfold Faceplate.transmissions. cbn [Faceplate.sent send].
  rewrite length_app. cbn [length]. lia.
Qed.

Lemma send_changes_driver (s : upd_state) (d : driver) : send s d ≠ d.
Proof.
  intros Heq. pose proof (send_transmits s d) as Hone.
  rewrite Heq in Hone. unfold Faceplate.transmissions in Hone. lia.
Qed.

Lemma update_dirty (s : upd_state) (d : driver) :
  Faceplate.last_sent d ≠ Some s → update s d = (s, send s d).
Proof.
  intros Hne. unfold Faceplate.faceplate_update_from_upd_if_dirty,
    Faceplate.is_dirty.
  by rewrite bool_decide_eq_true_2.
Qed.

Lemma update_clean (s : upd_state) (d : driver) :
  Faceplate.last_sent d = Some s → update s d = (s, d).
Proof.
  intros Heq. unfold Faceplate.faceplate_update_from_upd_if_dirty,
    Faceplate.is_dirty.
  rewrite bool_decide_eq_false_2; [done|by intros []].
Qed.

(** Before anything was transmitted, every state counts as changed. *)
Lemma first_update_transmits (s : upd_state) :
  update s (Faceplate.power_on : driver)
  = (s, send s (Faceplate.power_on : driver)).
Proof. by apply update_dirty. Qed.

(** C1: [faceplate_update_from_upd_if_dirty] takes the send path exactly
    when the incoming state differs from the state last transmitted, and
    leaves the driver as it was, with nothing transmitted, exactly when the
    two are the same. *)
Theorem update_sends_iff_changed (s : upd_state) (d : driver) :
  ((update s d).2 = send s d ↔ Faceplate.last_sent d ≠ Some s)
  ∧ ((update s d).2 = d ↔ Faceplate.last_sent d = Some s)
  ∧ (Faceplate.transmissions d (update s d).2 = 0
     ↔ Faceplate.last_sent d = Some s).
Proof.
  destruct (decide (Faceplate.last_sent d = Some s)) as [Heq|Hne].
  - rewrite (update_clean s d Heq). cbn [snd].
    unfold Faceplate.transmissions. rewrite Nat.sub_diag.
    pose proof (send_changes_driver s d). intuition congruence.
  - rewrite (update_dirty s d Hne). cbn [snd].
    rewrite send_transmits.
    pose proof (send_changes_driver s d). intuition congruence.
Qed.

(** C2: of two calls in a row with the same state, the second transmits
    nothing, so the two together transmit at most once. *)
Theorem second_update_is_silent (s : upd_state) (d : driver) :
  let d1 := (update s d).2 in
  let d2 := (update s d1).2 in
  d2 = d1
  ∧ Faceplate.transmissions d1 d2 = 0
  ∧ (Faceplate.transmissions d d2 ≤ 1)%nat.
Proof.
  intros d1 d2.
  assert (Hlast : Faceplate.last_sent d1 = Some s).
  { subst d1. destruct (decide (Faceplate.last_sent d = Some s)) as [Heq|Hne].
    - by rewrite (update_clean s d Heq).
    - by rewrite (update_dirty s d Hne). }
  assert (Hd2 : d2 = d1) by (subst d2; by rewrite (update_clean s d1 Hlast)).
  rewrite Hd2. split; [done|]. split.
  - unfold Faceplate.transmissions. lia.
  - subst d1. destruct (decide (Faceplate.last_sent d = Some s)) as [Heq|Hne].
    + rewrite (update_clean s d Heq). cbn [snd].
      unfold Faceplate.transmissions. lia.
    + rewrite (update_dirty s d Hne). cbn [snd]. by rewrite send_transmits.
Qed.

(** C3: the content of [*state] after the call is its content before. *)
Theorem update_reads_only (s : upd_state) (d : driver) :
  (update s d).1 = s.
Proof.
  unfold Faceplate.faceplate_update_from_upd_if_dirty.
  by destruct (Faceplate.is_dirty s d).
Qed.

(** C4: configuring the SPI peripheral twice leaves it, and the rest of
    the driver, as configuring it once. *)
Theorem spi_init_idempotent (d : driver) :
  spi_init (spi_init d) = spi_init d.
Proof. reflexivity. Qed.

End FaceplateDriver.

(** ** More on the disassembly recipes *)

Section RecipeRuns.

Variable sha1_hex : string → string.
Variable other : list string → string → Sh.files → Sh.outcome.

Abbreviation run_line' := (Sh.run_line sha1_hex other).
Abbreviation run_recipe' := (Sh.run_recipe sha1_hex other).
Abbreviation run_target' := (Sh.run_target sha1_hex other).

(** What the hashing line writes to [out.sha1]. *)
Abbreviation hashed fs :=
  (Sh.unlines
     (map (Sh.cut_line " " 2)
        (Sh.lines (Sh.stdout (Sh.openssl sha1_hex ["sha1"; "out.bin"] fs))))).

Lemma recipe_one (l : string) (fs : Sh.files) :
  run_recipe' [l] fs = (Sh.status (run_line' l fs), Sh.after (run_line' l fs)).
Proof. cbn [Sh.run_recipe]. by destruct (Sh.status (run_line' l fs)). Qed.

Lemma recipe_step (l : string) (ls : list string) (fs : Sh.files) :
  Sh.status (run_line' l fs) = 0 →
  run_recipe' (l :: ls) fs = run_recipe' ls (Sh.after (run_line' l fs)).
Proof. intros H0. cbn [Sh.run_recipe]. by rewrite H0. Qed.

Lemma recipe_stop (l : string) (ls : list string) (fs : Sh.files) (k : nat) :
  Sh.status (run_line' l fs) = S k →
  run_recipe' (l :: ls) fs = (S k, Sh.after (run_line' l fs)).
Proof. intros Hk. cbn [Sh.run_recipe]. by rewrite Hk. Qed.

(** The hashing line always succeeds, whatever [openssl] does: the status
    of a pipeline is that of its last command. *)
Lemma hashing_line (fs : Sh.files) :
  run_line' "openssl sha1 out.bin | cut -d ' ' -f 2 > out.sha1" fs
  = Sh.Outcome 0 "" (<["out.sha1" := hashed fs]> fs).
Proof.
  unfold Sh.run_line.
  change (Sh.parse Sh.nothing
            (Sh.lex false None
               "openssl sha1 out.bin | cut -d ' ' -f 2 > out.sha1"))
    with [ Sh.Simple [("openssl", false); ("sha1", false); ("out.bin", false)]
             None;
           Sh.Simple [("cut", false); ("-d", false); (" ", false);
                      ("-f", false); ("2", false)]
             (Some "out.sha1") ].
  cbn [Sh.run_pipeline].
  change (Sh.run_simple sha1_hex other
            (Sh.Simple [("openssl", false); ("sha1", false); ("out.bin", false)]
               None) "" fs)
    with (Sh.openssl sha1_hex ["sha1"; "out.bin"] fs).
  assert (Hfs : Sh.after (Sh.openssl sha1_hex ["sha1"; "out.bin"] fs) = fs).
  { unfold Sh.openssl. change (String.eqb "sha1" "sha1") with true.
    cbv beta iota. by destruct (fs !! "out.bin"). }
  rewrite Hfs. unfold Sh.run_simple. cbn [Sh.into].
  change (Sh.expand_args fs
            (Sh.argv (Sh.Simple [("cut", false); ("-d", false); (" ", false);
                                 ("-f", false); ("2", false)]
                        (Some "out.sha1"))))
    with ["cut"; "-d"; " "; "-f"; "2"].
  unfold Sh.utility.
  change (String.eqb "cut" "openssl") with false.
  change (String.eqb "cut" "diff") with false.
  change (String.eqb "cut" "cut") with true.
  change (String.eqb "-d" "-d" && String.eqb "-f" "-f") with true.
  cbv beta iota. unfold Sh.cut. change (Sh.digits 0 "2") with (Some 2).
  cbv beta iota. cbn [Sh.status Sh.stdout Sh.after].
  by rewrite insert_insert_eq.
Qed.

Lemma diff_keeps_files (args : list string) (fs : Sh.files) :
  Sh.after (Sh.diff args fs) = fs.
Proof.
  unfold Sh.diff. destruct args as [|a [|b [|c args]]]; try done.
  by destruct (fs !! a), (fs !! b).
Qed.

Lemma hashed_after_insert (c : string) (fs : Sh.files) :
  hashed (<["out.sha1" := c]> fs) = hashed fs.
Proof.
  unfold Sh.openssl. change (String.eqb "sha1" "sha1") with true.
  cbv beta iota. rewrite lookup_insert_ne by done.
  by destruct (fs !! "out.bin").
Qed.

(** The main-MCU [diff] target in one step: [out.sha1] is written, then
    [diff] compares and touches nothing. *)
Lemma mainmcu_diff_run (fs : Sh.files) :
  run_target' Make.mainmcu_mk "diff" fs
  = (Sh.status (Sh.diff ["pu1666a_mainmcu.sha1"; "out.sha1"]
                  (<["out.sha1" := hashed fs]> fs)),
     <["out.sha1" := hashed fs]> fs).
Proof.
  unfold Sh.run_target.
  change (Make.find_rule (Sh.names fs) Make.mainmcu_mk "diff")
    with (Some (Make.Rule "diff" "out.bin"
                  [ "openssl sha1 out.bin | cut -d ' ' -f 2 > out.sha1";
                    "diff pu1666a_mainmcu.sha1 out.sha1" ])).
  cbv beta iota.
  change (Make.commands _ _ _)
    with [ "openssl sha1 out.bin | cut -d ' ' -f 2 > out.sha1";
           "diff pu1666a_mainmcu.sha1 out.sha1" ].
  rewrite recipe_step by (by rewrite hashing_line).
  rewrite hashing_line. cbn [Sh.after]. rewrite recipe_one.
  change (run_line' "diff pu1666a_mainmcu.sha1 out.sha1" ?f)
    with (Sh.diff ["pu1666a_mainmcu.sha1"; "out.sha1"] f).
  by rewrite diff_keeps_files.
Qed.

Lemma clean_run (mf : Make.makefile) (fs : Sh.files) :
  mf = Make.mainmcu_mk ∨ mf = Make.submcu_mk →
  run_target' mf "clean" fs
  = (0, foldr delete fs (Sh.expand_word fs ("out.*", true))).
Proof.
  intros [-> | ->]; unfold Sh.run_target.
  - change (Make.find_rule (Sh.names fs) Make.mainmcu_mk "clean")
      with (Some (Make.Rule "clean" "" ["rm -f out.*"])).
    cbv beta iota.
    change (Make.commands _ _ _) with ["rm -f out.*"].
    by rewrite recipe_one, clean_line.
  - change (Make.find_rule (Sh.names fs) Make.submcu_mk "clean")
      with (Some (Make.Rule "clean" "" ["rm -f out.*"])).
    cbv beta iota.
    change (Make.commands _ _ _) with ["rm -f out.*"].
    by rewrite recipe_one, clean_line.
Qed.

(** X2: a failure of [openssl] is not noticed.  Without [out.bin] the
    hashing line still succeeds and leaves [out.sha1] empty, so the
    main-MCU [diff] target then succeeds exactly when the recorded hash
    file is empty too. *)
Theorem mainmcu_diff_without_out_bin (fs : Sh.files) :
  fs !! "out.bin" = None →
  (run_target' Make.mainmcu_mk "diff" fs).2 !! "out.sha1" = Some ""
  ∧ ((run_target' Make.mainmcu_mk "diff" fs).1 = 0
     ↔ fs !! "pu1666a_mainmcu.sha1" = Some "").
Proof.
  intros Hbin. rewrite mainmcu_diff_run. cbn [fst snd].
  assert (Hempty : hashed fs = "").
  { unfold Sh.openssl. change (String.eqb "sha1" "sha1") with true.
    cbv beta iota. rewrite Hbin. reflexivity. }
  rewrite Hempty, lookup_insert_eq. split; [done|].
  rewrite diff_status, lookup_insert_eq, lookup_insert_ne by done. split.
  - by intros (x & -> & [= ->]).
  - intros ->. by eexists.
Qed.

(** X4: the main-MCU [diff] target can be run again: the second run ends
    with the same status and the same files as the first. *)
Theorem mainmcu_diff_again (fs : Sh.files) :
  run_target' Make.mainmcu_mk "diff"
    (run_target' Make.mainmcu_mk "diff" fs).2
  = run_target' Make.mainmcu_mk "diff" fs.
Proof.
  rewrite (mainmcu_diff_run fs). cbn [snd]. rewrite mainmcu_diff_run.
  by rewrite hashed_after_insert, insert_insert_eq.
Qed.

(** X5: [clean] after [diff] leaves the main-MCU directory as [clean]
    alone does: the one file [diff] adds is among those [clean] removes. *)
Theorem mainmcu_clean_undoes_diff (fs : Sh.files) :
  run_target' Make.mainmcu_mk "clean"
    (run_target' Make.mainmcu_mk "diff" fs).2
  = run_target' Make.mainmcu_mk "clean" fs.
Proof.
  rewrite mainmcu_diff_run. cbn [snd]. rewrite !clean_run by auto.
  f_equal. apply map_eq. intros f. rewrite !clean_files.
  destruct (Glob.matches "out.*" f) eqn:Hm; [done|].
  apply lookup_insert_ne. intros <-. discriminate.
Qed.

(** X6: in both disassembly Makefiles [clean] is idempotent. *)
Theorem clean_idempotent (mf : Make.makefile) (fs : Sh.files) :
  mf = Make.mainmcu_mk ∨ mf = Make.submcu_mk →
  run_target' mf "clean" (run_target' mf "clean" fs).2
  = run_target' mf "clean" fs.
Proof.
  intros Hmf. rewrite !(clean_run mf) by done. cbn [snd].
  f_equal. apply map_eq. intros f. rewrite !clean_files.
  by destruct (Glob.matches "out.*" f).
Qed.

(** X7: where no file matches [out.*], [clean] still succeeds (the shell
    hands the pattern itself to [rm -f], which ignores the missing file)
    and changes nothing. *)
Theorem clean_with_nothing_to_remove (mf : Make.makefile) (fs : Sh.files) :
  mf = Make.mainmcu_mk ∨ mf = Make.submcu_mk →
  (∀ f, Glob.matches "out.*" f = true → fs !! f = None) →
  Sh.expand_word fs ("out.*", true) = ["out.*"]
  ∧ run_target' mf "clean" fs = (0, fs).
Proof.
  intros Hmf Hnone. split.
  - unfold Sh.expand_word. cbn [fst snd].
    destruct (List.filter (Glob.matches "out.*") (Sh.names fs))
      as [|g gs] eqn:E; [done|].
    assert (Hin : In g (List.filter (Glob.matches "out.*") (Sh.names fs)))
      by (rewrite E; by left).
    apply filter_In in Hin as [Hg Hm]. apply list_elem_of_In in Hg.
    unfold Sh.names in Hg. apply elem_of_elements, elem_of_dom in Hg.
    rewrite (Hnone g Hm) in Hg. by destruct Hg.
  - rewrite clean_run by done. f_equal. apply map_eq. intros f.
    rewrite clean_files.
    destruct (Glob.matches "out.*" f) eqn:Hm; [|done].
    symmetry. by apply Hnone.
Qed.

(** *** The sub-MCU recipe *)

Abbreviation checksum fs := (other ["python"; "checksum.py"; "out.bin"] "" fs).

End RecipeRuns.

(** ** Patterns that end in a fixed suffix *)

Lemma matches_star_empty (p : string) :
  Glob.matches (String "*" p) "" = Glob.matches p "" || false.
Proof. reflexivity. Qed.

Lemma matches_star_cons (p : string) (a : ascii) (s : string) :
  Glob.matches (String "*" p) (String a s)
  = Glob.matches p (String a s) || Glob.matches (String "*" p) s.
Proof. reflexivity. Qed.

(** What [*] followed by [p] matches ends in something [p] matches. *)
Lemma matches_star (p s : string) :
  Glob.matches (String "*" p) s = true →
  ∃ pre suf, s = pre +:+ suf ∧ Glob.matches p suf = true.
Proof.
  induction s as [|a s IH].
  - rewrite matches_star_empty, orb_false_r. intros Hm. by exists "", "".
  - rewrite matches_star_cons. intros [Hm|Hm]%orb_true_iff.
    + by exists "", (String a s).
    + destruct (IH Hm) as (pre & suf & -> & Hsuf).
      by exists (String a pre), suf.
Qed.

(** A pattern without [*] and [?] matches itself only. *)
Lemma matches_literal (p s : string) :
  Str.has_char "*" p = false → Str.has_char "?" p = false →
  Glob.matches p s = true → s = p.
Proof.
  revert s. induction p as [|c p IH]; intros s Hstar Hany.
  - by destruct s.
  - cbn [Str.has_char] in Hstar, Hany.
    apply orb_false_iff in Hstar as [Hc1 Hstar].
    apply orb_false_iff in Hany as [Hc2 Hany].
    cbn [Glob.matches]. rewrite Hc1.
    destruct s as [|d s]; [done|]. rewrite Hc2, orb_false_l.
    intros [Hcd Hm]%andb_true_iff.
    apply Ascii.eqb_eq in Hcd as ->. f_equal. by apply IH.
Qed.

Lemma matches_suffix (lit s : string) :
  Str.has_char "*" lit = false → Str.has_char "?" lit = false →
  Glob.matches (String "*" lit) s = true → ∃ pre, s = pre +:+ lit.
Proof.
  intros Hstar Hany Hm.
  destruct (matches_star lit s Hm) as (pre & suf & -> & Hsuf).
  exists pre. by rewrite (matches_literal lit suf Hstar Hany Hsuf).
Qed.

Lemma rev_append (s t : string) :
  String.rev (s +:+ t) = String.rev t +:+ String.rev s.
Proof.
  unfold String.rev. revert t. induction s as [|a s IH]; intros t.
  - change ("" +:+ t) with t. by rewrite append_empty_r.
  - rewrite append_cons. cbn [String.rev_app].
    rewrite (rev_app_app (s +:+ t)), IH, (rev_app_app s (String a "")).
    by rewrite append_assoc.
Qed.

(** A name that ends in [.c] ends in none of [.elf], [.hex], [.o],
    [.pyc]. *)
Lemma source_not_removable (name : string) :
  Glob.matches "*.c" name = true → Tools.removable name = false.
Proof.
  intros Hc. destruct (matches_suffix ".c" name eq_refl eq_refl Hc) as [pre ->].
  assert (Hno : ∀ lit pre',
            pre +:+ ".c" = pre' +:+ lit →
            String.rev lit = "fle." ∨ String.rev lit = "xeh."
            ∨ String.rev lit = "o." ∨ String.rev lit = "cyp." → False).
  { intros lit pre' Heq Hlit. apply (f_equal String.rev) in Heq.
    rewrite !rev_append in Heq.
    change (String.rev ".c") with "c." in Heq.
    destruct Hlit as [Hl|[Hl|[Hl|Hl]]]; rewrite Hl in Heq;
      rewrite !append_cons in Heq; discriminate Heq. }
  unfold Tools.removable.
  destruct (Glob.matches "*.elf" (pre +:+ ".c")) eqn:H1.
  { destruct (matches_suffix ".elf" _ eq_refl eq_refl H1) as [pre' Heq].
    destruct (Hno _ _ Heq). auto. }
  destruct (Glob.matches "*.hex" (pre +:+ ".c")) eqn:H2.
  { destruct (matches_suffix ".hex" _ eq_refl eq_refl H2) as [pre' Heq].
    destruct (Hno _ _ Heq). auto. }
  destruct (Glob.matches "*.o" (pre +:+ ".c")) eqn:H3.
  { destruct (matches_suffix ".o" _ eq_refl eq_refl H3) as [pre' Heq].
    destruct (Hno _ _ Heq). auto. }
  destruct (Glob.matches "*.pyc" (pre +:+ ".c")) eqn:H4; [|done].
  destruct (matches_suffix ".pyc" _ eq_refl eq_refl H4) as [pre' Heq].
  destruct (Hno _ _ Heq). auto.
Qed.

(** ** The firmware Makefile's [clean] *)

Section FirmwareClean.

Variable sha1_hex : string → string.
Variable other : list string → string → Sh.files → Sh.outcome.

Abbreviation run_clean fs :=
  (Sh.run_target sha1_hex (Tools.with_find other) Make.kwp1281_mk "clean" fs).

Lemma find_delete_lookup (pat : string) (fs : Sh.files) (p : string) :
  Sh.after (Tools.find_delete pat fs) !! p
  = if Glob.matches pat (Tools.basename p) then None else fs !! p.
Proof.
  unfold Tools.find_delete. cbn [Sh.after].
  destruct (Glob.matches pat (Tools.basename p)) eqn:Hm.
  - destruct (fs !! p) as [x|] eqn:Hx.
    + apply lookup_foldr_delete, list_elem_of_In, filter_In.
      split; [|done]. apply list_elem_of_In. unfold Sh.names.
      apply elem_of_elements, elem_of_dom. by exists x.
    + destruct (foldr delete fs _ !! p) as [y|] eqn:Hy; [|done].
      apply lookup_foldr_delete_Some in Hy as [_ Hy]. congruence.
  - apply lookup_foldr_delete_not_elem_of.
    intros [_ Hm']%list_elem_of_In%filter_In. congruence.
Qed.

Lemma find_lines (fs : Sh.files) :
  Sh.run_line sha1_hex (Tools.with_find other)
    "find . -depth -name '*.elf' -print -delete" fs
  = Tools.find_delete "*.elf" fs
  ∧ Sh.run_line sha1_hex (Tools.with_find other)
      "find . -depth -name '*.hex' -print -delete" fs
    = Tools.find_delete "*.hex" fs
  ∧ Sh.run_line sha1_hex (Tools.with_find other)
      "find . -depth -name '*.o'   -print -delete" fs
    = Tools.find_delete "*.o" fs
  ∧ Sh.run_line sha1_hex (Tools.with_find other)
      "find . -depth -name '*.pyc' -print -delete" fs
    = Tools.find_delete "*.pyc" fs.
Proof. repeat split; reflexivity. Qed.

Lemma firmware_clean_run (fs : Sh.files) :
  run_clean fs
  = (0, Sh.after (Tools.find_delete "*.pyc"
          (Sh.after (Tools.find_delete "*.o"
             (Sh.after (Tools.find_delete "*.hex"
                (Sh.after (Tools.find_delete "*.elf" fs)))))))).
Proof.
  unfold Sh.run_target.
  change (Make.find_rule (Sh.names fs) Make.kwp1281_mk "clean")
    with (Some (Make.Rule "clean" ""
           [ "find . -depth -name '*.elf' -print -delete";
             "find . -depth -name '*.hex' -print -delete";
             "find . -depth -name '*.o'   -print -delete";
             "find . -depth -name '*.pyc' -print -delete" ])).
  cbv beta iota.
  change (Make.commands _ _ _)
    with [ "find . -depth -name '*.elf' -print -delete";
           "find . -depth -name '*.hex' -print -delete";
           "find . -depth -name '*.o'   -print -delete";
           "find . -depth -name '*.pyc' -print -delete" ].
  rewrite (recipe_step sha1_hex), (proj1 (find_lines _))
    by (by rewrite (proj1 (find_lines _))).
  rewrite (recipe_step sha1_hex), (proj1 (proj2 (find_lines _)))
    by (by rewrite (proj1 (proj2 (find_lines _)))).
  rewrite (recipe_step sha1_hex), (proj1 (proj2 (proj2 (find_lines _))))
    by (by rewrite (proj1 (proj2 (proj2 (find_lines _))))).
  rewrite (recipe_one sha1_hex), (proj2 (proj2 (proj2 (find_lines _)))).
  reflexivity.
Qed.

(** X11: the firmware's [clean] never removes a C source: a file whose
    name ends in [.c] is after [clean] what it was before. *)
Theorem firmware_clean_keeps_sources (fs : Sh.files) (p : string) :
  Glob.matches "*.c" (Tools.basename p) = true →
  (run_clean fs).2 !! p = fs !! p.
Proof.
  intros Hc. rewrite firmware_clean_run. cbn [snd].
  rewrite !find_delete_lookup.
  pose proof (source_not_removable _ Hc) as Hkeep.
  unfold Tools.removable in Hkeep.
  apply orb_false_iff in Hkeep as [Hkeep Hpyc].
  apply orb_false_iff in Hkeep as [Hkeep Ho].
  apply orb_false_iff in Hkeep as [Helf Hhex].
  by rewrite Hpyc, Ho, Hhex, Helf.
Qed.

End FirmwareClean.

(** ** The other targets of the firmware Makefile *)

Section Kwp1281Targets.

Variable dir : list string.
Hypothesis names_plain : Forall (fun f => Str.plain f = true) dir.

Abbreviation mk' := Make.kwp1281_mk.

(** Closes a goal with a hypothesis that puts one literal name in a list
    of other literal names. *)
Local Ltac absurd_member H :=
  repeat (apply elem_of_cons in H as [H|H]; [discriminate H|]);
  by apply elem_of_nil in H.
Abbreviation c_files := (List.filter (Glob.matches "*.c") dir).
Abbreviation gcc_line :=
  ("avr-gcc -mmcu=atmega1284 -g -Wall -Os -std=c99 -DF_CPU=20000000 -I. -o kwp1281.elf "
   +:+ Str.join " " c_files).

(** Prerequisites without a rule add no command and are marked as seen. *)
Lemma leaves_seen f (ws seen : list string) :
  Forall (fun w => Make.find_rule dir mk' w = None) ws →
  let r := foldl (fun (acc : list string * list string) p =>
                    let r' := Make.plan dir mk' (S f) acc.2 p in
                    (acc.1 ++ r'.1, r'.2))
                 ([], seen) ws in
  r.1 = [] ∧ ∀ x, x ∈ r.2 ↔ x ∈ seen ∨ x ∈ ws.
Proof.
  intros Hws. revert seen.
  induction Hws as [|w ws Hw Hws IH]; intros seen.
  - cbn. split; [done|]. intros x. rewrite elem_of_nil. tauto.
  - cbn [foldl fst snd]. rewrite plan_unfold, Hw.
    case_bool_decide as Hin; cbn [fst snd app].
    + destruct (IH seen) as [H1 H2]. split; [exact H1|].
      intros x. rewrite H2, elem_of_cons. split; [tauto|].
      intros [?|[->|?]]; tauto.
    + destruct (IH (w :: seen)) as [H1 H2]. split; [exact H1|].
      intros x. rewrite H2, !elem_of_cons. tauto.
Qed.

Lemma elf_seen f (seen : list string) :
  "kwp1281.elf" ∉ seen →
  let r := Make.plan dir mk' (S (S f)) seen "kwp1281.elf" in
  r.1 = [gcc_line]
  ∧ ∀ x, x ∈ r.2 ↔ x = "kwp1281.elf" ∨ x ∈ seen ∨ x ∈ c_files.
Proof.
  intros Hseen r. subst r.
  rewrite plan_unfold, bool_decide_eq_false_2 by done.
  change (Make.find_rule dir mk' "kwp1281.elf")
    with (Some (Make.Rule "$(PROJECT).elf" "$(SOURCES)"
                  [ "avr-gcc $(CFLAGS) -I. -o $(PROJECT).elf $(SOURCES)" ])).
  cbv beta iota. cbn [Make.prereqs].
  change (Make.expand dir mk' "$(SOURCES)")
    with ((Str.join " " c_files +:+ "") +:+ "").
  rewrite !append_empty_r, (words_sources dir names_plain).
  assert (Hleaves : Forall (fun w => Make.find_rule dir mk' w = None) c_files).
  { apply Forall_forall. intros w Hw.
    apply list_elem_of_In, filter_In in Hw as [_ Hm].
    by apply source_has_no_rule. }
  destruct (leaves_seen f c_files ("kwp1281.elf" :: seen) Hleaves) as [H1 H2].
  cbv zeta in H1, H2 |- *. cbn [fst snd]. rewrite H1. split.
  - cbn [app]. unfold Make.commands. cbn [map Make.recipe]. f_equal.
    change (Make.expand dir mk'
              "avr-gcc $(CFLAGS) -I. -o $(PROJECT).elf $(SOURCES)")
      with ("avr-gcc -mmcu=atmega1284 -g -Wall -Os -std=c99 -DF_CPU=20000000 -I. -o kwp1281.elf "
            +:+ ((Str.join " " c_files +:+ "") +:+ "")).
    by rewrite !append_empty_r.
  - intros x. rewrite H2, elem_of_cons. tauto.
Qed.

Lemma hex_seen f (seen : list string) :
  "kwp1281.hex" ∉ seen → "kwp1281.elf" ∉ seen →
  let r := Make.plan dir mk' (S (S (S f))) seen "kwp1281.hex" in
  r.1 = [ gcc_line;
          "avr-objcopy -j .text -j .data -O ihex kwp1281.elf kwp1281.hex" ]
  ∧ ∀ x, x ∈ r.2 ↔ x = "kwp1281.hex" ∨ x = "kwp1281.elf" ∨ x ∈ seen
                    ∨ x ∈ c_files.
Proof.
  intros Hhex Helf r. subst r.
  rewrite plan_unfold, bool_decide_eq_false_2 by done.
  change (Make.find_rule dir mk' "kwp1281.hex")
    with (Some (Make.Rule "$(PROJECT).hex" "$(PROJECT).elf"
                  [ "avr-objcopy -j .text -j .data -O ihex $(PROJECT).elf $(PROJECT).hex" ])).
  cbv beta iota zeta. cbn [Make.prereqs].
  change (String.words (Make.expand dir mk' "$(PROJECT).elf"))
    with ["kwp1281.elf"].
  cbn [foldl fst snd app].
  assert (Hnot : "kwp1281.elf" ∉ "kwp1281.hex" :: seen)
    by (rewrite not_elem_of_cons; done).
  destruct (elf_seen f ("kwp1281.hex" :: seen) Hnot) as [H1 H2].
  cbv zeta in H1, H2. rewrite H1. split; [reflexivity|].
  intros x. rewrite H2, elem_of_cons. tauto.
Qed.

Lemma not_a_source (t : string) :
  Glob.matches "*.c" t = false → t ∉ c_files.
Proof.
  intros Hm [_ Hc]%list_elem_of_In%filter_In. congruence.
Qed.

(** X12: [make all] cleans first, then compiles and converts the image
    once, then flashes: the image [program] needs is the one already
    made, so nothing is compiled twice.  The file names in the directory
    are taken to hold no white space. *)
Theorem kwp1281_all_order :
  Make.build dir mk' "all" =
    [ "find . -depth -name '*.elf' -print -delete";
      "find . -depth -name '*.hex' -print -delete";
      "find . -depth -name '*.o'   -print -delete";
      "find . -depth -name '*.pyc' -print -delete";
      gcc_line;
      "avr-objcopy -j .text -j .data -O ihex kwp1281.elf kwp1281.hex";
      "avrdude -c atmelice -p atmega1284 -U lfuse:w:0xF7:m -U hfuse:w:0x92:m -U efuse:w:0xFF:m";
      "avrdude -c atmelice -p atmega1284 -U flash:w:kwp1281.hex" ].
Proof.
  unfold Make.build. cbn [length Make.rules mk'].
  rewrite plan_unfold, bool_decide_eq_false_2 by apply not_elem_of_nil.
  change (Make.find_rule dir mk' "all")
    with (Some (Make.Rule "all" "clean $(PROJECT).hex program" [])).
  cbv beta iota zeta. cbn [Make.prereqs].
  change (String.words (Make.expand dir mk' "clean $(PROJECT).hex program"))
    with ["clean"; "kwp1281.hex"; "program"].
  cbn [foldl fst snd app].
  change (Make.plan dir mk' 8 ["all"] "clean")
    with ([ "find . -depth -name '*.elf' -print -delete";
            "find . -depth -name '*.hex' -print -delete";
            "find . -depth -name '*.o'   -print -delete";
            "find . -depth -name '*.pyc' -print -delete" ],
          ["clean"; "all"]).
  cbn [fst snd].
  assert (Hhex : "kwp1281.hex" ∉ ["clean"; "all"])
    by (intros Hin; absurd_member Hin).
  assert (Helf : "kwp1281.elf" ∉ ["clean"; "all"])
    by (intros Hin; absurd_member Hin).
  destruct (hex_seen 5 ["clean"; "all"] Hhex Helf) as [H1 H2].
  cbv zeta in H1, H2.
  destruct (Make.plan dir mk' 8 ["clean"; "all"] "kwp1281.hex")
    as [cmds seen] eqn:Eplan.
  cbn [fst snd] in H1, H2 |- *. subst cmds.
  assert (Hprog : "program" ∉ seen).
  { rewrite H2. intros [Hx|[Hx|[Hx|Hx]]];
      [discriminate Hx | discriminate Hx | absurd_member Hx |].
    by apply not_a_source in Hx. }
  rewrite plan_unfold, bool_decide_eq_false_2 by exact Hprog.
  change (Make.find_rule dir mk' "program")
    with (Some (Make.Rule "program" "$(PROJECT).hex"
      [ "avrdude $(ISPFLAGS) -p $(MMCU) -U lfuse:w:0xF7:m -U hfuse:w:0x92:m -U efuse:w:0xFF:m";
        "avrdude $(ISPFLAGS) -p $(MMCU) -U flash:w:$(PROJECT).hex" ])).
  cbv beta iota zeta. cbn [Make.prereqs].
  change (String.words (Make.expand dir mk' "$(PROJECT).hex"))
    with ["kwp1281.hex"].
  cbn [foldl fst snd app].
  rewrite plan_unfold, bool_decide_eq_true_2
    by (rewrite elem_of_cons, H2; auto).
  reflexivity.
Qed.


End Kwp1281Targets.

(** ** The header, when its guard macro is already defined *)

(** X16: with [FACEPLATE_H] defined beforehand, including [faceplate.h]
    any number of times emits nothing and defines nothing: neither the
    declarations nor the two headers it includes are seen. *)
Theorem predefined_guard_hides_header
    (other_header : string → gset string → list string * gset string)
    (d n : nat) (ms : gset string) :
  "FACEPLATE_H" ∈ ms →
  Cpp.file other_header (S (S d)) (Cpp.unit_of n) (Cpp.State ms [] [] false)
  = Cpp.State ms [] [] false.
Proof. intros Hdef. by apply repeated_inclusion. Qed.

(** ** The properties above at concrete inputs *)

(** No [out.bin] and an empty recorded hash: the target succeeds. *)
Lemma mainmcu_diff_without_out_bin_witness :
  let fs : Sh.files := <["pu1666a_mainmcu.sha1" := ""]> ∅ in
  fs !! "out.bin" = None
  ∧ (Sh.run_target Sh.known_sha1 Sh.succeeds Make.mainmcu_mk "diff" fs).1 = 0.
Proof.
  intros fs.
  assert (Hbin : fs !! "out.bin" = None) by reflexivity.
  split; [exact Hbin|].
  apply (mainmcu_diff_without_out_bin Sh.known_sha1 Sh.succeeds fs Hbin).
  reflexivity.
Defined.

Lemma clean_idempotent_witness :
  (Make.mainmcu_mk = Make.mainmcu_mk ∨ Make.mainmcu_mk = Make.submcu_mk)
  ∧ Sh.run_target Sh.known_sha1 Sh.succeeds Make.mainmcu_mk "clean"
      (Sh.run_target Sh.known_sha1 Sh.succeeds Make.mainmcu_mk "clean"
         Sh.mainmcu_dir).2
    = Sh.run_target Sh.known_sha1 Sh.succeeds Make.mainmcu_mk "clean"
        Sh.mainmcu_dir.
Proof.
  assert (Hmf : Make.mainmcu_mk = Make.mainmcu_mk
                ∨ Make.mainmcu_mk = Make.submcu_mk) by (left; reflexivity).
  split; [exact Hmf|].
  exact (clean_idempotent Sh.known_sha1 Sh.succeeds Make.mainmcu_mk
           Sh.mainmcu_dir Hmf).
Defined.

Lemma clean_with_nothing_to_remove_witness :
  let fs : Sh.files := <["software23.asm" := "; source"]> ∅ in
  (Make.submcu_mk = Make.mainmcu_mk ∨ Make.submcu_mk = Make.submcu_mk)
  ∧ (∀ f, Glob.matches "out.*" f = true → fs !! f = None)
  ∧ Sh.run_target Sh.known_sha1 Sh.succeeds Make.submcu_mk "clean" fs
    = (0, fs).
Proof.
  intros fs.
  assert (Hmf : Make.submcu_mk = Make.mainmcu_mk
                ∨ Make.submcu_mk = Make.submcu_mk) by (right; reflexivity).
  assert (Hnone : ∀ f, Glob.matches "out.*" f = true → fs !! f = None).
  { intros f Hm. subst fs.
    destruct (decide (f = "software23.asm")) as [->|Hne];
      [discriminate Hm|].
    rewrite lookup_insert_ne by done. apply lookup_empty. }
  split; [exact Hmf|]. split; [exact Hnone|].
  exact (proj2 (clean_with_nothing_to_remove Sh.known_sha1 Sh.succeeds
                  Make.submcu_mk fs Hmf Hnone)).
Defined.

Lemma firmware_clean_keeps_sources_witness :
  Glob.matches "*.c" (Tools.basename "main.c") = true
  ∧ (Sh.run_target Sh.known_sha1 (Tools.with_find Sh.fails)
       Make.kwp1281_mk "clean" Tools.sample_tree).2 !! "main.c"
    = Tools.sample_tree !! "main.c".
Proof.
  assert (Hc : Glob.matches "*.c" (Tools.basename "main.c") = true)
    by reflexivity.
  split; [exact Hc|].
  exact (firmware_clean_keeps_sources Sh.known_sha1 Sh.fails
           Tools.sample_tree "main.c" Hc).
Defined.

Lemma sample_dir_plain :
  Forall (fun f => Str.plain f = true) Make.sample_dir.
Proof. repeat apply Forall_cons_2; try apply Forall_nil_2; reflexivity. Defined.

Lemma kwp1281_all_order_witness :
  Forall (fun f => Str.plain f = true) Make.sample_dir
  ∧ length (Make.build Make.sample_dir Make.kwp1281_mk "all") = 8.
Proof.
  split; [exact sample_dir_plain|].
  rewrite (kwp1281_all_order Make.sample_dir sample_dir_plain). reflexivity.
Defined.


Lemma predefined_guard_hides_header_witness :
  "FACEPLATE_H" ∈ ({[ "FACEPLATE_H" ]} : gset string)
  ∧ Cpp.file Cpp.sample_header 2 (Cpp.unit_of 3)
      (Cpp.State {[ "FACEPLATE_H" ]} [] [] false)
    = Cpp.State {[ "FACEPLATE_H" ]} [] [] false.
Proof.
  assert (Hdef : "FACEPLATE_H" ∈ ({[ "FACEPLATE_H" ]} : gset string))
    by (by apply elem_of_singleton).
  split; [exact Hdef|].
  exact (predefined_guard_hides_header Cpp.sample_header 0 3
           {[ "FACEPLATE_H" ]} Hdef).
Defined.

(** ** The listing rule of the main-MCU Makefile *)

Section Listing.

Variable sha1_hex : string → string.
Variable other : list string → string → Sh.files → Sh.outcome.

Abbreviation make_listing fs :=
  (Sh.run_target sha1_hex (Tools.with_mv other) Make.mainmcu_mk "out.lst" fs).
Abbreviation assembled fs :=
  (other ["asf2mc8"; "-l"; "pu1666a_mainmcu.asm"] "" fs).

Lemma listing_commands (fs : Sh.files) :
  make_listing fs
  = Sh.run_recipe sha1_hex (Tools.with_mv other)
      [ "asf2mc8 -l pu1666a_mainmcu.asm";
        "mv pu1666a_mainmcu.lst out.lst";
        "rm -f out.hlr" ] fs.
Proof.
  unfold Sh.run_target.
  change (Make.find_rule (Sh.names fs) Make.mainmcu_mk "out.lst")
    with (Some (Make.Rule "out.lst" "pu1666a_mainmcu.asm"
                  [ "asf2mc8 -l pu1666a_mainmcu.asm";
                    "mv pu1666a_mainmcu.lst out.lst";
                    "rm -f out.hlr" ])).
  reflexivity.
Qed.

Lemma listing_lines (fs : Sh.files) :
  Sh.run_line sha1_hex (Tools.with_mv other)
    "asf2mc8 -l pu1666a_mainmcu.asm" fs = assembled fs
  ∧ Sh.run_line sha1_hex (Tools.with_mv other)
      "mv pu1666a_mainmcu.lst out.lst" fs
    = Tools.mv "pu1666a_mainmcu.lst" "out.lst" fs
  ∧ Sh.run_line sha1_hex (Tools.with_mv other) "rm -f out.hlr" fs
    = Sh.Outcome 0 "" (delete "out.hlr" fs).
Proof. repeat split; reflexivity. Qed.

(** X17: when the assembler succeeds and leaves [pu1666a_mainmcu.lst],
    the rule for [out.lst] succeeds: the listing is now [out.lst], the
    file [pu1666a_mainmcu.lst] and any [out.hlr] are gone, and every
    other file is as the assembler left it. *)
Theorem listing_is_renamed (fs : Sh.files) (listing : string) :
  Sh.status (assembled fs) = 0 →
  Sh.after (assembled fs) !! "pu1666a_mainmcu.lst" = Some listing →
  Sh.run_target sha1_hex (Tools.with_mv other) Make.mainmcu_mk "out.lst" fs
  = (0, delete "out.hlr"
          (<["out.lst" := listing]>
             (delete "pu1666a_mainmcu.lst" (Sh.after (assembled fs))))).
Proof.
  intros Hok Hlst. rewrite listing_commands.
  destruct (listing_lines fs) as (Hasm & _ & _).
  rewrite (recipe_step sha1_hex) by (by rewrite Hasm). rewrite Hasm.
  destruct (listing_lines (Sh.after (assembled fs))) as (_ & Hmv & _).
  assert (Hmoved : Tools.mv "pu1666a_mainmcu.lst" "out.lst"
                     (Sh.after (assembled fs))
                   = Sh.Outcome 0 ""
                       (<["out.lst" := listing]>
                          (delete "pu1666a_mainmcu.lst"
                             (Sh.after (assembled fs))))).
  { unfold Tools.mv. by rewrite Hlst. }
  rewrite (recipe_step sha1_hex) by (by rewrite Hmv, Hmoved).
  rewrite Hmv, Hmoved. cbn [Sh.after].
  rewrite (recipe_one sha1_hex).
  by rewrite (proj2 (proj2 (listing_lines _))).
Qed.

(** X18: when the assembler fails, or succeeds without leaving
    [pu1666a_mainmcu.lst], the rule for [out.lst] fails and changes
    nothing of its own: in the first case with the assembler's status, in
    the second with status 1 from [mv], and [rm -f out.hlr] is not run. *)
Theorem listing_fails_without_lst (fs : Sh.files) :
  Sh.status (assembled fs) ≠ 0
  ∨ Sh.after (assembled fs) !! "pu1666a_mainmcu.lst" = None →
  (Sh.run_target sha1_hex (Tools.with_mv other) Make.mainmcu_mk "out.lst"
     fs).1 ≠ 0
  ∧ (Sh.run_target sha1_hex (Tools.with_mv other) Make.mainmcu_mk "out.lst"
       fs).2 = Sh.after (assembled fs).
Proof.
  intros Hbad. rewrite listing_commands.
  destruct (listing_lines fs) as (Hasm & _ & _).
  destruct (Sh.status (assembled fs)) as [|k] eqn:Hs.
  - destruct Hbad as [Hbad|Hnone]; [done|].
    rewrite (recipe_step sha1_hex) by (by rewrite Hasm). rewrite Hasm.
    destruct (listing_lines (Sh.after (assembled fs))) as (_ & Hmv & _).
    assert (Hstuck : Tools.mv "pu1666a_mainmcu.lst" "out.lst"
                       (Sh.after (assembled fs))
                     = Sh.Outcome 1 "" (Sh.after (assembled fs))).
    { unfold Tools.mv. by rewrite Hnone. }
    rewrite (recipe_stop sha1_hex _ _ _ _ 0) by (by rewrite Hmv, Hstuck).
    rewrite Hmv, Hstuck. by split.
  - rewrite (recipe_stop sha1_hex _ _ _ _ k) by (by rewrite Hasm).
    rewrite Hasm. by split.
Qed.

End Listing.

Lemma listing_is_renamed_witness :
  Sh.status (Tools.lists ["asf2mc8"; "-l"; "pu1666a_mainmcu.asm"] ""
               Tools.source_dir) = 0
  ∧ Sh.after (Tools.lists ["asf2mc8"; "-l"; "pu1666a_mainmcu.asm"] ""
                Tools.source_dir) !! "pu1666a_mainmcu.lst" = Some "listing"
  ∧ Sh.run_target Sh.known_sha1 (Tools.with_mv Tools.lists) Make.mainmcu_mk
      "out.lst" Tools.source_dir
    = (0, <["out.lst" := "listing"]>
            (<["pu1666a_mainmcu.asm" := "; source"]> ∅)).
Proof.
  assert (Hok : Sh.status (Tools.lists ["asf2mc8"; "-l"; "pu1666a_mainmcu.asm"]
                             "" Tools.source_dir) = 0) by reflexivity.
  assert (Hlst : Sh.after (Tools.lists ["asf2mc8"; "-l"; "pu1666a_mainmcu.asm"]
                             "" Tools.source_dir) !! "pu1666a_mainmcu.lst"
                 = Some "listing") by reflexivity.
  split; [exact Hok|]. split; [exact Hlst|].
  rewrite (listing_is_renamed Sh.known_sha1 Tools.lists Tools.source_dir
             "listing" Hok Hlst).
  vm_compute. reflexivity.
Defined.

Lemma listing_fails_without_lst_witness :
  (Sh.status (Sh.succeeds ["asf2mc8"; "-l"; "pu1666a_mainmcu.asm"] ""
                Tools.source_dir) ≠ 0
   ∨ Sh.after (Sh.succeeds ["asf2mc8"; "-l"; "pu1666a_mainmcu.asm"] ""
                 Tools.source_dir) !! "pu1666a_mainmcu.lst" = None)
  ∧ (Sh.run_target Sh.known_sha1 (Tools.with_mv Sh.succeeds) Make.mainmcu_mk
       "out.lst" Tools.source_dir).2 = Tools.source_dir.
Proof.
  assert (Hbad :
    Sh.status (Sh.succeeds ["asf2mc8"; "-l"; "pu1666a_mainmcu.asm"] ""
                 Tools.source_dir) ≠ 0
    ∨ Sh.after (Sh.succeeds ["asf2mc8"; "-l"; "pu1666a_mainmcu.asm"] ""
                  Tools.source_dir) !! "pu1666a_mainmcu.lst" = None)
    by (right; reflexivity).
  split; [exact Hbad|].
  exact (proj2 (listing_fails_without_lst Sh.known_sha1 Sh.succeeds
                  Tools.source_dir Hbad)).
Defined.

(** ** Runs of make on the disassembly Makefiles *)

Section MakeRuns.

Variable sha1_hex : string → string.
Variable other : list string → string → Sh.files → Sh.outcome.
Variable outdated : string → bool.

Abbreviation gmake := (Gmake.make sha1_hex other outdated).
Abbreviation gbefore := (Gmake.before sha1_hex other outdated).
Abbreviation recipe := (Sh.run_recipe sha1_hex other).

(** A recipe within a run of make is the recipe on the run's files. *)
Lemma run_lines_recipe (ls : list string) (st : Gmake.state) :
  Gmake.files (Gmake.run_lines sha1_hex other ls st)
  = (recipe ls (Gmake.files st)).2
  ∧ Gmake.failed (Gmake.run_lines sha1_hex other ls st)
    = Gmake.failed st || negb (Nat.eqb (recipe ls (Gmake.files st)).1 0).
Proof.
  revert st. induction ls as [|l ls IH]; intros st.
  - cbn. by rewrite orb_false_r.
  - cbn [Gmake.run_lines Sh.run_recipe].
    destruct (Sh.status (Sh.run_line sha1_hex other l (Gmake.files st)))
      as [|k] eqn:Hs.
    + apply IH.
    + cbn. by rewrite orb_true_r.
Qed.

(** [make t] when [t] has a rule: the prerequisites first; after an error
    nothing more; otherwise the recipe when [t] is to be remade. *)
Lemma make_with_rule (mf : Make.makefile) (t : string) (fs : Sh.files)
    (r : Make.rule) :
  Make.find_rule (Sh.names fs) mf t = Some r →
  gmake mf t fs =
    if Gmake.failed (gbefore mf t fs) then gbefore mf t fs
    else if Gmake.remake outdated mf (Sh.names fs) r t (gbefore mf t fs)
    then Gmake.mark t
           (Gmake.run_lines sha1_hex other
              (Make.commands (Sh.names (Gmake.files (gbefore mf t fs))) mf r)
              (gbefore mf t fs))
    else Gmake.mark t (gbefore mf t fs).
Proof.
  intros Hr. unfold Gmake.make, Gmake.before. cbn [Gmake.update].
  rewrite Hr. cbn [Gmake.start Gmake.failed Gmake.seen].
  rewrite bool_decide_eq_false_2 by apply not_elem_of_nil. reflexivity.
Qed.

Lemma remake_missing (mf : Make.makefile) (dir : list string)
    (r : Make.rule) (t : string) (st : Gmake.state) :
  Gmake.files st !! t = None → Gmake.remake outdated mf dir r t st = true.
Proof. intros Hnone. unfold Gmake.remake. by rewrite Hnone. Qed.

(** The two [diff] targets, when remade: make fails exactly when the
    recipe does, and leaves the recipe's files. *)
Lemma make_diff_main (fs : Sh.files) :
  Gmake.failed (gbefore Make.mainmcu_mk "diff" fs) = false →
  Gmake.files (gbefore Make.mainmcu_mk "diff" fs) !! "diff" = None →
  let r := recipe [ "openssl sha1 out.bin | cut -d ' ' -f 2 > out.sha1";
                    "diff pu1666a_mainmcu.sha1 out.sha1" ]
             (Gmake.files (gbefore Make.mainmcu_mk "diff" fs)) in
  Gmake.files (gmake Make.mainmcu_mk "diff" fs) = r.2
  ∧ (Gmake.exit (gmake Make.mainmcu_mk "diff" fs) = 0 ↔ r.1 = 0)
  ∧ (Gmake.exit (gmake Make.mainmcu_mk "diff" fs) = 2 ↔ r.1 ≠ 0).
Proof.
  intros Hok Hnone r.
  rewrite (make_with_rule Make.mainmcu_mk "diff" fs
             (Make.Rule "diff" "out.bin"
                [ "openssl sha1 out.bin | cut -d ' ' -f 2 > out.sha1";
                  "diff pu1666a_mainmcu.sha1 out.sha1" ]) eq_refl).
  rewrite Hok, remake_missing by exact Hnone.
  change (Make.commands _ _ _)
    with [ "openssl sha1 out.bin | cut -d ' ' -f 2 > out.sha1";
           "diff pu1666a_mainmcu.sha1 out.sha1" ].
  unfold Gmake.exit. cbn [Gmake.mark Gmake.files Gmake.failed].
  destruct (run_lines_recipe
              [ "openssl sha1 out.bin | cut -d ' ' -f 2 > out.sha1";
                "diff pu1666a_mainmcu.sha1 out.sha1" ]
              (gbefore Make.mainmcu_mk "diff" fs)) as [Hf Hs].
  rewrite Hf, Hs, Hok. fold r. clearbody r. destruct r as [[|k] after].
  - cbn [fst snd Nat.eqb negb orb]. repeat split; congruence.
  - cbn [fst snd Nat.eqb negb orb]. repeat split; congruence.
Qed.

Lemma make_diff_sub (fs : Sh.files) :
  Gmake.failed (gbefore Make.submcu_mk "diff" fs) = false →
  Gmake.files (gbefore Make.submcu_mk "diff" fs) !! "diff" = None →
  let r := recipe [ "python checksum.py out.bin";
                    "openssl sha1 out.bin | cut -d ' ' -f 2 > out.sha1";
                    "diff software23.sha1 out.sha1" ]
             (Gmake.files (gbefore Make.submcu_mk "diff" fs)) in
  Gmake.files (gmake Make.submcu_mk "diff" fs) = r.2
  ∧ (Gmake.exit (gmake Make.submcu_mk "diff" fs) = 0 ↔ r.1 = 0)
  ∧ (Gmake.exit (gmake Make.submcu_mk "diff" fs) = 2 ↔ r.1 ≠ 0).
Proof.
  intros Hok Hnone r.
  rewrite (make_with_rule Make.submcu_mk "diff" fs
             (Make.Rule "diff" "out.bin"
                [ "python checksum.py out.bin";
                  "openssl sha1 out.bin | cut -d ' ' -f 2 > out.sha1";
                  "diff software23.sha1 out.sha1" ]) eq_refl).
  rewrite Hok, remake_missing by exact Hnone.
  change (Make.commands _ _ _)
    with [ "python checksum.py out.bin";
           "openssl sha1 out.bin | cut -d ' ' -f 2 > out.sha1";
           "diff software23.sha1 out.sha1" ].
  unfold Gmake.exit. cbn [Gmake.mark Gmake.files Gmake.failed].
  destruct (run_lines_recipe
              [ "python checksum.py out.bin";
                "openssl sha1 out.bin | cut -d ' ' -f 2 > out.sha1";
                "diff software23.sha1 out.sha1" ]
              (gbefore Make.submcu_mk "diff" fs)) as [Hf Hs].
  rewrite Hf, Hs, Hok. fold r. clearbody r. destruct r as [[|k] after].
  - cbn [fst snd Nat.eqb negb orb]. repeat split; congruence.
  - cbn [fst snd Nat.eqb negb orb]. repeat split; congruence.
Qed.

End MakeRuns.

Section MakeDiff.

Variable sha1_hex : string → string.
Variable other : list string → string → Sh.files → Sh.outcome.
Variable outdated : string → bool.

Abbreviation gmake' := (Gmake.make sha1_hex other outdated).
Abbreviation gbefore' := (Gmake.before sha1_hex other outdated).

Lemma main_recipe_run (fs : Sh.files) :
  Sh.run_recipe sha1_hex other
    [ "openssl sha1 out.bin | cut -d ' ' -f 2 > out.sha1";
      "diff pu1666a_mainmcu.sha1 out.sha1" ] fs
  = Sh.run_target sha1_hex other Make.mainmcu_mk "diff" fs.
Proof. reflexivity. Qed.

(** X1: whatever happens, [make diff] in the main-MCU directory changes
    no file other than [out.sha1] once its prerequisites are dealt with:
    every other file is as bringing [out.bin] up to date left it. *)
Theorem make_diff_writes_only_out_sha1 (fs : Sh.files) (f : string) :
  f ≠ "out.sha1" →
  Gmake.files (Gmake.make sha1_hex other outdated Make.mainmcu_mk "diff" fs)
    !! f
  = Gmake.files
      (Gmake.before sha1_hex other outdated Make.mainmcu_mk "diff" fs) !! f.
Proof.
  intros Hf.
  rewrite (make_with_rule sha1_hex other outdated Make.mainmcu_mk "diff" fs
             (Make.Rule "diff" "out.bin"
                [ "openssl sha1 out.bin | cut -d ' ' -f 2 > out.sha1";
                  "diff pu1666a_mainmcu.sha1 out.sha1" ]) eq_refl).
  destruct (Gmake.failed (gbefore' Make.mainmcu_mk "diff" fs)); [done|].
  destruct (Gmake.remake _ _ _ _ _ _); [|done].
  change (Make.commands _ _ _)
    with [ "openssl sha1 out.bin | cut -d ' ' -f 2 > out.sha1";
           "diff pu1666a_mainmcu.sha1 out.sha1" ].
  cbn [Gmake.mark Gmake.files].
  rewrite (proj1 (run_lines_recipe sha1_hex other _ _)).
  rewrite main_recipe_run, mainmcu_diff_run. cbn [snd].
  by rewrite lookup_insert_ne.
Qed.

(** X3: with the prerequisites dealt with and no file named [diff], the
    main-MCU [make diff] exits with status 2 when the recorded hash file
    is absent, whatever [out.bin] holds. *)
Theorem make_diff_without_recorded_hash (fs : Sh.files) :
  Gmake.failed
    (Gmake.before sha1_hex other outdated Make.mainmcu_mk "diff" fs) = false →
  Gmake.files
    (Gmake.before sha1_hex other outdated Make.mainmcu_mk "diff" fs)
    !! "diff" = None →
  Gmake.files
    (Gmake.before sha1_hex other outdated Make.mainmcu_mk "diff" fs)
    !! "pu1666a_mainmcu.sha1" = None →
  Gmake.exit (Gmake.make sha1_hex other outdated Make.mainmcu_mk "diff" fs)
  = 2.
Proof.
  intros Hok Hnone Hgold.
  destruct (make_diff_main sha1_hex other outdated fs Hok Hnone)
    as (_ & _ & Hexit).
  apply Hexit. rewrite main_recipe_run, mainmcu_diff_run. cbn [fst].
  unfold Sh.diff. rewrite lookup_insert_ne by done. by rewrite Hgold.
Qed.

(** X8: when [python checksum.py out.bin] exits with a non-zero status,
    the sub-MCU [make diff] exits with status 2, nothing is hashed, and
    the files are as the script left them. *)
Theorem make_diff_stops_at_checksum (fs : Sh.files) :
  let pre := Gmake.before sha1_hex other outdated Make.submcu_mk "diff" fs in
  let checksum :=
    other ["python"; "checksum.py"; "out.bin"] "" (Gmake.files pre) in
  Gmake.failed pre = false →
  Gmake.files pre !! "diff" = None →
  Sh.status checksum ≠ 0 →
  Gmake.exit (Gmake.make sha1_hex other outdated Make.submcu_mk "diff" fs) = 2
  ∧ Gmake.files (Gmake.make sha1_hex other outdated Make.submcu_mk "diff" fs)
    = Sh.after checksum.
Proof.
  intros pre checksum Hok Hnone Hbad.
  destruct (make_diff_sub sha1_hex other outdated fs Hok Hnone)
    as (Hfiles & _ & Hexit).
  destruct (Sh.status checksum) as [|k] eqn:Hk; [done|].
  rewrite Hfiles, Hexit.
  rewrite (recipe_stop sha1_hex other "python checksum.py out.bin" _ _ k Hk).
  by split.
Qed.

(** X9: with the prerequisites dealt with and no file named [diff], the
    sub-MCU [make diff] changes, beyond what [checksum.py] itself does,
    no file other than [out.sha1], whether it succeeds or fails. *)
Theorem make_diff_sub_writes_only_out_sha1 (fs : Sh.files) (f : string) :
  let pre := Gmake.before sha1_hex other outdated Make.submcu_mk "diff" fs in
  let checksum :=
    other ["python"; "checksum.py"; "out.bin"] "" (Gmake.files pre) in
  Gmake.failed pre = false →
  Gmake.files pre !! "diff" = None →
  f ≠ "out.sha1" →
  Gmake.files (Gmake.make sha1_hex other outdated Make.submcu_mk "diff" fs)
    !! f
  = Sh.after checksum !! f.
Proof.
  intros pre checksum Hok Hnone Hf.
  destruct (make_diff_sub sha1_hex other outdated fs Hok Hnone)
    as (Hfiles & _ & _).
  rewrite Hfiles.
  destruct (Sh.status checksum) as [|k] eqn:Hs.
  - rewrite (recipe_step sha1_hex other) by exact Hs.
    change (Sh.run_line sha1_hex other "python checksum.py out.bin"
              (Gmake.files (gbefore' Make.submcu_mk "diff" fs)))
      with checksum.
    rewrite (recipe_step sha1_hex other) by (by rewrite hashing_line).
    rewrite hashing_line. cbn [Sh.after].
    rewrite (recipe_one sha1_hex other). cbn [snd].
    change (Sh.run_line sha1_hex other "diff software23.sha1 out.sha1" ?g)
      with (Sh.diff ["software23.sha1"; "out.sha1"] g).
    by rewrite diff_keeps_files, lookup_insert_ne.
  - by rewrite (recipe_stop sha1_hex other "python checksum.py out.bin"
                  _ _ k Hs).
Qed.

Hypothesis sha1_hex_digits : ∀ bytes, Str.hex (sha1_hex bytes) = true.


End MakeDiff.


Lemma known_sha1_hex (bytes : string) : Str.hex (Sh.known_sha1 bytes) = true.
Proof.
  unfold Sh.known_sha1. destruct (String.eqb bytes "abc"); reflexivity.
Defined.


Lemma make_diff_writes_only_out_sha1_witness :
  "pu1666a_mainmcu.sha1" ≠ "out.sha1"
  ∧ Gmake.files
      (Gmake.make Sh.known_sha1 Sh.succeeds Gmake.never Make.mainmcu_mk
         "diff" Gmake.built_main) !! "pu1666a_mainmcu.sha1"
    = Gmake.built_main !! "pu1666a_mainmcu.sha1".
Proof.
  assert (Hne : "pu1666a_mainmcu.sha1" ≠ "out.sha1") by discriminate.
  split; [exact Hne|].
  rewrite (make_diff_writes_only_out_sha1 Sh.known_sha1 Sh.succeeds
             Gmake.never Gmake.built_main "pu1666a_mainmcu.sha1" Hne).
  vm_compute. reflexivity.
Defined.

Lemma make_diff_without_recorded_hash_witness :
  let fs : Sh.files := delete "pu1666a_mainmcu.sha1" Gmake.built_main in
  Gmake.files
    (Gmake.before Sh.known_sha1 Sh.succeeds Gmake.never Make.mainmcu_mk
       "diff" fs) !! "pu1666a_mainmcu.sha1" = None
  ∧ Gmake.exit
      (Gmake.make Sh.known_sha1 Sh.succeeds Gmake.never Make.mainmcu_mk
         "diff" fs) = 2.
Proof.
  intros fs. split; [vm_compute; reflexivity|].
  apply (make_diff_without_recorded_hash Sh.known_sha1 Sh.succeeds
           Gmake.never fs); vm_compute; reflexivity.
Defined.

Lemma make_diff_stops_at_checksum_witness :
  Sh.status (Sh.fails ["python"; "checksum.py"; "out.bin"] "" Gmake.built_sub)
  ≠ 0
  ∧ Gmake.exit
      (Gmake.make Sh.known_sha1 Sh.fails Gmake.never Make.submcu_mk "diff"
         Gmake.built_sub) = 2
  ∧ Gmake.files
      (Gmake.make Sh.known_sha1 Sh.fails Gmake.never Make.submcu_mk "diff"
         Gmake.built_sub) = Gmake.built_sub.
Proof.
  assert (Hbad : Sh.status
                   (Sh.fails ["python"; "checksum.py"; "out.bin"] ""
                      Gmake.built_sub) ≠ 0) by discriminate.
  split; [exact Hbad|].
  apply (make_diff_stops_at_checksum Sh.known_sha1 Sh.fails Gmake.never
           Gmake.built_sub); [vm_compute; reflexivity.. | exact Hbad].
Defined.

Lemma make_diff_sub_writes_only_out_sha1_witness :
  "software23.sha1" ≠ "out.sha1"
  ∧ Gmake.files
      (Gmake.make Sh.known_sha1 Sh.succeeds Gmake.never Make.submcu_mk "diff"
         Gmake.built_sub) !! "software23.sha1"
    = Gmake.built_sub !! "software23.sha1".
Proof.
  assert (Hne : "software23.sha1" ≠ "out.sha1") by discriminate.
  split; [exact Hne|].
  rewrite (make_diff_sub_writes_only_out_sha1 Sh.known_sha1 Sh.succeeds
             Gmake.never Gmake.built_sub "software23.sha1");
    [reflexivity | vm_compute; reflexivity | vm_compute; reflexivity
    | exact Hne].
Defined.

(** ** [make clean] in the firmware directory *)

Section MakeClean.

Variable sha1_hex : string → string.
Variable other : list string → string → Sh.files → Sh.outcome.
Variable outdated : string → bool.

(** X10: [make clean] in the firmware directory removes nothing but files
    whose last path component ends in [.elf], [.hex], [.o] or [.pyc]:
    every other file is afterwards what it was before, whether the recipe
    runs or a file named [clean] keeps make from running it. *)
Theorem make_clean_removes_by_extension_only (fs : Sh.files) (p : string) :
  Tools.removable (Tools.basename p) = false →
  Gmake.files
    (Gmake.make sha1_hex (Tools.with_find other) outdated Make.kwp1281_mk
       "clean" fs) !! p
  = fs !! p.
Proof.
  intros Hkeep.
  rewrite (make_with_rule sha1_hex (Tools.with_find other) outdated
             Make.kwp1281_mk "clean" fs
             (Make.Rule "clean" ""
                [ "find . -depth -name '*.elf' -print -delete";
                  "find . -depth -name '*.hex' -print -delete";
                  "find . -depth -name '*.o'   -print -delete";
                  "find . -depth -name '*.pyc' -print -delete" ]) eq_refl).
  change (Gmake.before sha1_hex (Tools.with_find other) outdated
            Make.kwp1281_mk "clean" fs)
    with (Gmake.start fs).
  cbn [Gmake.start Gmake.failed].
  destruct (Gmake.remake _ _ _ _ _ _); [|done].
  cbn [Gmake.mark Gmake.files].
  rewrite (proj1 (run_lines_recipe sha1_hex (Tools.with_find other) _ _)).
  change (Sh.run_recipe sha1_hex (Tools.with_find other) _ _)
    with (Sh.run_target sha1_hex (Tools.with_find other) Make.kwp1281_mk
            "clean" fs).
  rewrite firmware_clean_run. cbn [snd]. rewrite !find_delete_lookup.
  unfold Tools.removable in Hkeep.
  apply orb_false_iff in Hkeep as [Hkeep Hpyc].
  apply orb_false_iff in Hkeep as [Hkeep Ho].
  apply orb_false_iff in Hkeep as [Helf Hhex].
  by rewrite Hpyc, Ho, Hhex, Helf.
Qed.

End MakeClean.

Lemma make_clean_removes_by_extension_only_witness :
  Tools.removable (Tools.basename "host/util.py") = false
  ∧ Gmake.files
      (Gmake.make Sh.known_sha1 (Tools.with_find Sh.fails) Gmake.never
         Make.kwp1281_mk "clean" Tools.sample_tree) !! "host/util.py"
    = Tools.sample_tree !! "host/util.py".
Proof.
  assert (Hkeep : Tools.removable (Tools.basename "host/util.py") = false)
    by reflexivity.
  split; [exact Hkeep|].
  exact (make_clean_removes_by_extension_only Sh.known_sha1 Sh.fails
           Gmake.never Tools.sample_tree "host/util.py" Hkeep).
Defined.

(** X13: [arduino_mega] has no prerequisite and a recipe of its own: it
    compiles for the ATmega2560 at 16 MHz, whatever [MMCU], [F_CPU] and
    [CFLAGS] are set to, into the same [kwp1281.elf] and [kwp1281.hex] the
    default build writes, and flashes over [/dev/ttyACM0] without writing
    fuses. *)
Theorem kwp1281_arduino_mega (dir : list string) :
  Make.prereqs <$> Make.find_rule dir Make.kwp1281_mk "arduino_mega" = Some ""
  ∧ Make.build dir Make.kwp1281_mk "arduino_mega" =
    [ "avr-gcc -DF_CPU=16000000 -mmcu=atmega2560 -g -Wall -Os -std=c99 -I. -o kwp1281.elf "
      +:+ Str.join " " (List.filter (Glob.matches "*.c") dir);
      "avr-objcopy -j .text -j .data -O ihex kwp1281.elf kwp1281.hex";
      "avrdude -cwiring -P /dev/ttyACM0 -D -p atmega2560 -U flash:w:kwp1281.hex" ].
Proof.
  split; [reflexivity|].
  change (Make.build dir Make.kwp1281_mk "arduino_mega")
    with [ "avr-gcc -DF_CPU=16000000 -mmcu=atmega2560 -g -Wall -Os -std=c99 -I. -o kwp1281.elf "
           +:+ ((Str.join " " (List.filter (Glob.matches "*.c") dir) +:+ "")
                +:+ "");
           "avr-objcopy -j .text -j .data -O ihex kwp1281.elf kwp1281.hex";
           "avrdude -cwiring -P /dev/ttyACM0 -D -p atmega2560 -U flash:w:kwp1281.hex" ].
  by rewrite !append_empty_r.
Qed.

(** ** The programs the firmware Makefile's targets call *)

Lemma tame_app (s t : string) :
  Invoke.tame (s +:+ t) = Invoke.tame s && Invoke.tame t.
Proof.
  induction s as [|c s IH]; [reflexivity|].
  rewrite append_cons. cbn [Invoke.tame]. rewrite IH.
  by rewrite !andb_assoc.
Qed.

Lemma tame_join (l : list string) :
  Forall (fun f => Invoke.tame f = true) l →
  Invoke.tame (Str.join " " l) = true.
Proof.
  induction 1 as [|f l Hf Hl IH]; [reflexivity|].
  destruct l as [|g l]; [exact Hf|].
  change (Str.join " " (f :: g :: l))
    with (f +:+ " " +:+ Str.join " " (g :: l)).
  by rewrite !tame_app, Hf, IH.
Qed.

Lemma ordinary_tame (s : string) :
  Invoke.tame s = true → Invoke.ordinary false s = true.
Proof.
  induction s as [|c s IH]; [done|].
  cbn [Invoke.tame Invoke.ordinary].
  intros [[[[Hsp Hq]%andb_true_iff Hp]%andb_true_iff Hr]%andb_true_iff
            Hs]%andb_true_iff.
  apply negb_true_iff in Hq. rewrite Hq, Hsp. by apply IH.
Qed.

(** A tame text is lexed into words only. *)
Lemma lex_tame (s : string) (cur : option (string * bool)) :
  Invoke.tame s = true →
  Forall (fun tok => ∃ w g, tok = Sh.TWord w g) (Sh.lex false cur s).
Proof.
  revert cur. induction s as [|c s IH]; intros cur.
  - intros _. destruct cur as [[w g]|]; cbn; [|constructor].
    apply Forall_cons_2; [by eexists _, _ | constructor].
  - cbn [Invoke.tame Sh.lex].
    intros [[[[Hsp Hq]%andb_true_iff Hp]%andb_true_iff Hr]%andb_true_iff
              Hs]%andb_true_iff.
    apply negb_true_iff in Hq, Hp, Hr. rewrite Hq, Hp, Hr.
    destruct (Ascii.eqb c " "); [|by apply IH].
    apply Forall_app_2; [|by apply IH].
    destruct cur as [[w g]|]; cbn; [|constructor].
    apply Forall_cons_2; [by eexists _, _ | constructor].
Qed.

(** Words only make one command, begun by what was read before them. *)
Lemma parse_words (ts : list Sh.token) (c : Sh.simple) :
  Forall (fun tok => ∃ w g, tok = Sh.TWord w g) ts →
  ∃ args, Sh.parse c ts = [Sh.Simple (Sh.argv c ++ args) (Sh.into c)].
Proof.
  intros Hts. revert c.
  induction Hts as [|tok ts (w & g & ->) Hts IH]; intros c.
  - exists []. cbn. rewrite app_nil_r. by destruct c.
  - cbn [Sh.parse]. destruct (IH (Sh.add_arg (w, g) c)) as [args ->].
    exists ((w, g) :: args). cbn. by rewrite <- app_assoc.
Qed.

(** A line that is a program name, a blank and tame text calls that
    program and nothing else. *)
Lemma invoked_program (prog rest : string) :
  Invoke.tame prog = true → prog ≠ "" → Str.plain prog = true →
  Invoke.tame rest = true →
  Invoke.invoked (prog +:+ " " +:+ rest) = Some [prog].
Proof.
  intros Hprog Hne Hplain Hrest. unfold Invoke.invoked.
  rewrite ordinary_tame by (by rewrite !tame_app, Hprog, Hrest).
  f_equal.
  assert (Hgo : ∀ w acc g,
            Invoke.tame w = true → Str.plain w = true →
            ∃ g', Sh.lex false (Some (acc, g)) (w +:+ " " +:+ rest)
                  = Sh.TWord (String.rev (String.rev_app w acc)) g'
                    :: Sh.lex false None rest).
  { induction w as [|c w IH]; intros acc g Hw Hp.
    - exists g. reflexivity.
    - cbn [Invoke.tame] in Hw. cbn [Str.plain] in Hp.
      apply andb_true_iff in Hw as [Hw Hw'].
      apply andb_true_iff in Hw as [Hw Hr].
      apply andb_true_iff in Hw as [Hw Hpipe].
      apply andb_true_iff in Hw as [Hsp Hq].
      apply andb_true_iff in Hp as [Hc Hp].
      apply negb_true_iff in Hq, Hpipe, Hr, Hc.
      rewrite append_cons. cbn [Sh.lex]. rewrite Hq, Hpipe, Hr.
      assert (Hblank : Ascii.eqb c " " = false).
      { destruct (Ascii.eqb_spec c " ") as [->|]; [discriminate Hc|done]. }
      rewrite Hblank. cbn [Sh.grow String.rev_app].
      by apply IH. }
  destruct prog as [|c w]; [done|].
  cbn [Invoke.tame] in Hprog. cbn [Str.plain] in Hplain.
  apply andb_true_iff in Hprog as [Hw Hw'].
  apply andb_true_iff in Hw as [Hw Hr].
  apply andb_true_iff in Hw as [Hw Hpipe].
  apply andb_true_iff in Hw as [Hsp Hq].
  apply andb_true_iff in Hplain as [Hc Hp].
  apply negb_true_iff in Hq, Hpipe, Hr, Hc.
  rewrite append_cons. cbn [Sh.lex]. rewrite Hq, Hpipe, Hr.
  assert (Hblank : Ascii.eqb c " " = false).
  { destruct (Ascii.eqb_spec c " ") as [->|]; [discriminate Hc|done]. }
  rewrite Hblank. cbn [Sh.grow].
  destruct (Hgo w (String c "") (Ascii.eqb c "*" || Ascii.eqb c "?") Hw' Hp)
    as [g' ->].
  cbn [Sh.parse].
  destruct (parse_words (Sh.lex false None rest)
              (Sh.add_arg (String.rev (String.rev_app w (String c "")), g')
                 Sh.nothing) (lex_tame rest None Hrest)) as [args ->].
  cbn [map Invoke.program Sh.argv Sh.add_arg Sh.nothing app].
  f_equal. change (String.rev_app w (String c ""))
    with (String.rev (String c w)). apply rev_rev.
Qed.

Section CliTargets.

Variable dir : list string.
Hypothesis names_tame : Forall (fun f => Invoke.tame f = true) dir.

Abbreviation c_sources := (Str.join " " (List.filter (Glob.matches "*.c") dir)).

Lemma sources_tame : Invoke.tame c_sources = true.
Proof.
  apply tame_join, Forall_forall. intros f Hf.
  apply list_elem_of_In, filter_In in Hf as [Hin _].
  rewrite Forall_forall in names_tame.
  apply names_tame. by apply list_elem_of_In.
Qed.

(** Solves [p ∈ l] for a literal [p] in a literal list [l]. *)
Local Ltac in_list :=
  repeat first [apply list_elem_of_here | apply list_elem_of_further].

(** A recipe line without file names in it: the programs are computed. *)
Local Ltac closed_line :=
  match goal with
  | |- ∃ p, Invoke.invoked ?c = Some [p] ∧ _ =>
      let v := eval vm_compute in (Invoke.invoked c) in
      match v with
      | Some [?q] =>
          exists q; split; [vm_compute; reflexivity | in_list]
      end
  end.

(** C7: each of the six targets [program], [size], [dump], [clean],
    [arduino_mega] and [all] has a rule in the firmware Makefile, with the
    recipes listed here ([all] has none), and every recipe line makes the
    shell start exactly one program, one of [avr-gcc], [avr-objcopy],
    [avr-size], [avr-objdump], [avrdude] and [find]: no line has a pipe, a
    command separator or a substitution.  The file names in the directory
    are taken to hold no character that is special to the shell. *)
Theorem cli_targets_run_toolchain :
  map (fun t => Make.commands dir Make.kwp1281_mk
                <$> Make.find_rule dir Make.kwp1281_mk t)
      Make.cli_targets
  = [ Some [ "avrdude -c atmelice -p atmega1284 -U lfuse:w:0xF7:m -U hfuse:w:0x92:m -U efuse:w:0xFF:m";
             "avrdude -c atmelice -p atmega1284 -U flash:w:kwp1281.hex" ];
      Some [ "avr-size --mcu=atmega1284 --format=avr kwp1281.elf" ];
      Some [ "avr-objdump -h -S -I. kwp1281.elf" ];
      Some [ "find . -depth -name '*.elf' -print -delete";
             "find . -depth -name '*.hex' -print -delete";
             "find . -depth -name '*.o'   -print -delete";
             "find . -depth -name '*.pyc' -print -delete" ];
      Some [ "avr-gcc -DF_CPU=16000000 -mmcu=atmega2560 -g -Wall -Os -std=c99 -I. -o kwp1281.elf "
             +:+ c_sources;
             "avr-objcopy -j .text -j .data -O ihex kwp1281.elf kwp1281.hex";
             "avrdude -cwiring -P /dev/ttyACM0 -D -p atmega2560 -U flash:w:kwp1281.hex" ];
      Some [] ]
  ∧ Forall
      (fun t =>
         ∃ r, Make.find_rule dir Make.kwp1281_mk t = Some r
              ∧ Forall (fun c => ∃ p, Invoke.invoked c = Some [p]
                                      ∧ p ∈ Make.toolchain)
                       (Make.commands dir Make.kwp1281_mk r))
      Make.cli_targets.
Proof.
  split.
  - unfold Make.cli_targets. cbn [map].
    change (Make.commands dir Make.kwp1281_mk
            <$> Make.find_rule dir Make.kwp1281_mk "arduino_mega")
      with (Some
        [ "avr-gcc -DF_CPU=16000000 -mmcu=atmega2560 -g -Wall -Os -std=c99 -I. -o kwp1281.elf "
          +:+ ((c_sources +:+ "") +:+ "");
          "avr-objcopy -j .text -j .data -O ihex kwp1281.elf kwp1281.hex";
          "avrdude -cwiring -P /dev/ttyACM0 -D -p atmega2560 -U flash:w:kwp1281.hex" ]).
    rewrite !append_empty_r. reflexivity.
  - unfold Make.cli_targets, Make.toolchain.
    repeat apply Forall_cons_2; try apply Forall_nil_2;
      (eexists; split; [reflexivity|]);
      unfold Make.commands; cbn [map Make.recipe];
      repeat apply Forall_cons_2; try apply Forall_nil_2;
      try closed_line.
    change (Make.expand dir Make.kwp1281_mk
              "avr-gcc -DF_CPU=16000000 -mmcu=atmega2560 -g -Wall -Os -std=c99 -I. -o $(PROJECT).elf $(SOURCES)")
      with ("avr-gcc" +:+ " "
            +:+ ("-DF_CPU=16000000 -mmcu=atmega2560 -g -Wall -Os -std=c99 -I. -o kwp1281.elf "
                 +:+ ((c_sources +:+ "") +:+ ""))).
    exists "avr-gcc". split; [|in_list].
    apply invoked_program; try reflexivity; [done|].
    by rewrite !tame_app, sources_tame.
Qed.

End CliTargets.

Lemma sample_dir_tame :
  Forall (fun f => Invoke.tame f = true) Make.sample_dir.
Proof. repeat apply Forall_cons_2; try apply Forall_nil_2; reflexivity. Defined.

Lemma cli_targets_run_toolchain_witness :
  Forall (fun f => Invoke.tame f = true) Make.sample_dir
  ∧ Forall
      (fun t =>
         ∃ r, Make.find_rule Make.sample_dir Make.kwp1281_mk t = Some r
              ∧ Forall (fun c => ∃ p, Invoke.invoked c = Some [p]
                                      ∧ p ∈ Make.toolchain)
                       (Make.commands Make.sample_dir Make.kwp1281_mk r))
      Make.cli_targets.
Proof.
  split; [exact sample_dir_tame|].
  exact (proj2 (cli_targets_run_toolchain Make.sample_dir sample_dir_tame)).
Defined.
